(** * Curvature tensors of einsteinpy.symbolic: [ricci.py] and [weyl.py]

    A shallow embedding of the classes [RicciTensor], [RicciScalar] and
    [WeylTensor].  The two modules orchestrate calls into sympy and into
    sibling modules of einsteinpy (tensor, metric, christoffel, riemann);
    those collaborators are interfaces here (type classes), the code of the
    two modules is translated function by function on top of them. *)

From Stdlib Require Import Ascii String List ZArith Arith Lia Bool Ring_theory Ring.
Import ListNotations.
Local Open Scope string_scope.
Local Open Scope list_scope.
Local Open Scope nat_scope.

Set Implicit Arguments.

(** ** Results and Python exceptions *)

Inductive result (E A : Type) : Type :=
| Ok (a : A)
| Raise (e : E).

Arguments Ok {E A} a.
Arguments Raise {E A} e.

Definition bind {E A B : Type} (r : result E A) (k : A -> result E B)
  : result E B :=
  match r with
  | Ok a => k a
  | Raise e => Raise e
  end.

Notation "x <- r ;; k" := (bind r (fun x => k))
  (at level 61, r at next level, right associativity).

(** An exception is one raised by a [raise] statement of the two modules
    (its class and message), one raised by the interpreter (a failed
    attribute lookup, a list index out of range), or one that comes out of a
    call into a collaborator ([Engine]). *)
Inductive PyExc (X : Type) : Type :=
| TypeError (msg : string)
| ValueError (msg : string)
| Exception (msg : string)
| AttributeError (msg : string)
| IndexError (msg : string)
| Engine (x : X).

Arguments TypeError {X} msg.
Arguments ValueError {X} msg.
Arguments Exception {X} msg.
Arguments AttributeError {X} msg.
Arguments IndexError {X} msg.
Arguments Engine {X} x.

Definition ext {X A : Type} (r : result X A) : result (PyExc X) A :=
  match r with
  | Ok a => Ok a
  | Raise x => Raise (Engine x)
  end.

(** ** Arrays and Python values *)

(** A dense N-dimensional array: its shape and its entries in row-major
    order, as sympy's [ImmutableDenseNDimArray] keeps them. *)
Record NDimArray (T : Type) : Type := mkArray {
  shape : list nat;
  entries : list T
}.

Definition rank {T : Type} (a : NDimArray T) : nat := length (shape a).

(** The Python values that reach the constructors as [arr], [syms] or
    [expression]; lists and tuples are those of sympy expressions (the
    coordinate symbols). *)
Inductive PyObj (T : Type) : Type :=
| PyNone
| PyInt (z : Z)
| PyStr (s : string)
| PyList (l : list T)
| PyTuple (l : list T)
| PyExpr (e : T)
| PyArray (a : NDimArray T).

Arguments PyNone {T}.
Arguments PyInt {T} z.
Arguments PyStr {T} s.

(** [isinstance(syms, (list, tuple))], with [len(syms)] when it holds. *)
Definition seq_len {T : Type} (syms : PyObj T) : option nat :=
  match syms with
  | PyList l => Some (length l)
  | PyTuple l => Some (length l)
  | _ => None
  end.

(** A configuration string is made of the letters u and l. *)
Fixpoint is_config (c : string) : bool :=
  match c with
  | EmptyString => true
  | String ch rest =>
      (Ascii.eqb ch "u"%char || Ascii.eqb ch "l"%char) && is_config rest
  end.

(** Row-major position of a multi-index in an array of the given shape;
    [None] when the number of indices differs from the rank or an index is
    out of range. *)
Fixpoint flat_index (sh idx : list nat) (acc : nat) : option nat :=
  match sh, idx with
  | [], [] => Some acc
  | d :: sh', i :: idx' =>
      if i <? d then flat_index sh' idx' (acc * d + i) else None
  | _, _ => None
  end.

(** Dense-array operations over any type of entries with a zero, a sum and a
    product. *)
Section ArrayOps.

Variable T : Type.
Variable zero : T.
Variables plus times : T -> T -> T.

Definition size (sh : list nat) : nat := fold_right Nat.mul 1 sh.

(** The entry at a multi-index, [zero] outside the array. *)
Definition entry (a : NDimArray T) (idx : list nat) : T :=
  match flat_index (shape a) idx 0 with
  | Some p => nth p (entries a) zero
  | None => zero
  end.

(** All multi-indices of a shape, in row-major order. *)
Fixpoint indices (sh : list nat) : list (list nat) :=
  match sh with
  | [] => [[]]
  | d :: sh' => flat_map (fun i => map (cons i) (indices sh')) (seq 0 d)
  end.

Definition tabulate (sh : list nat) (f : list nat -> T) : NDimArray T :=
  {| shape := sh; entries := map f (indices sh) |}.

(** [f 0 + f 1 + ... + f (n - 1)], summed from [zero]. *)
Definition sum_n (n : nat) (f : nat -> T) : T :=
  fold_left (fun acc j => plus acc (f j)) (seq 0 n) zero.

Definition set_nth (p j : nat) (idx : list nat) : list nat :=
  firstn p idx ++ j :: skipn (S p) idx.

Definition insert_at (p j : nat) (idx : list nat) : list nat :=
  firstn p idx ++ j :: skipn p idx.

Definition remove_at (p : nat) (sh : list nat) : list nat :=
  firstn p sh ++ skipn (S p) sh.

(** Axis [p] of [t] contracted with the second axis of the matrix [M]:
    the entry at [idx] is the sum over [j] of [M[idx_p, j] * t[idx with j at p]]. *)
Definition contract_axis (M : NDimArray T) (p : nat) (t : NDimArray T)
  : NDimArray T :=
  tabulate (shape t)
    (fun idx =>
       sum_n (nth p (shape t) 0)
         (fun j => times (entry M [nth p idx 0; j]) (entry t (set_nth p j idx)))).

(** The sum over the diagonal of axes [p < q]; [None] when the axes do not
    fit the array. *)
Definition contraction (a : NDimArray T) (p q : nat)
  : option (list nat * list T) :=
  let sh := shape a in
  if (p <? q) && (q <? length sh) && (nth p sh 0 =? nth q sh 0)
     && (length (entries a) =? size sh)
  then
    let rest := remove_at p (remove_at q sh) in
    Some (rest,
          map (fun idx =>
                 sum_n (nth p sh 0)
                   (fun j => entry a (insert_at q j (insert_at p j idx))))
              (indices rest))
  else None.

End ArrayOps.

(** ** The collaborators *)

(** sympy: expressions with their arithmetic, simplification and array
    contraction. *)
Class Sympy : Type := {
  Expr : Type;
  EngineExc : Type;
  of_int : Z -> Expr;
  add : Expr -> Expr -> Expr;
  sub : Expr -> Expr -> Expr;
  mul : Expr -> Expr -> Expr;
  div : Expr -> Expr -> Expr;
  (** [sympy.simplify] on an array *)
  simplify : NDimArray Expr -> NDimArray Expr;
  (** [sympy.tensorcontraction(a, (p, q))]: an array, or a scalar when no
      axis is left *)
  tensorcontraction :
    NDimArray Expr -> nat -> nat -> result EngineExc (PyObj Expr);
  (** what sympy raises for an index outside an array *)
  bad_index : EngineExc;
  (** what [sympy.Array] raises for a ragged nested list *)
  ragged : EngineExc;
  (** a value that is not a scalar expression used as an operand *)
  operand_other : PyObj Expr -> result EngineExc Expr
}.

Definition Exc `{Sympy} : Type := PyExc EngineExc.
Definition Res `{Sympy} (A : Type) : Type := result Exc A.

(** Component access [a[i, k, ...]] of a dense array. *)
Definition getitem `{Sympy} (a : NDimArray Expr) (idx : list nat) : Res Expr :=
  match flat_index (shape a) idx 0 with
  | Some p =>
      match nth_error (entries a) p with
      | Some e => Ok e
      | None => Raise (Engine bad_index)
      end
  | None => Raise (Engine bad_index)
  end.

(** A scalar operand of sympy arithmetic. *)
Definition operand `{Sympy} (o : PyObj Expr) : Res Expr :=
  match o with
  | PyExpr e => Ok e
  | _ => ext (operand_other o)
  end.

(** The base class [Tensor]: an array annotated with a configuration. *)
Record Tensor `{Sympy} : Type := mkTensor {
  arr : NDimArray Expr;
  config : string
}.

(** einsteinpy.symbolic.tensor and einsteinpy.symbolic.metric. *)
Class TensorLib `{Sympy} : Type := {
  Metric : Type;
  metric_dims : Metric -> nat;
  metric_config : Metric -> string;
  metric_syms : Metric -> PyObj Expr;
  metric_tensor : Metric -> NDimArray Expr;
  (** [metric.inv()] *)
  metric_inv : Metric -> result EngineExc Metric;
  (** the checks of [Tensor.__init__(arr, config)] and the array it stores *)
  Tensor_array : PyObj Expr -> string -> result EngineExc (NDimArray Expr);
  (** [_change_config(tensor, metric, newconfig)] *)
  _change_config : Tensor -> Metric -> string -> result EngineExc (PyObj Expr)
}.

(** [Tensor.__init__]: the array is checked and stored, the configuration is
    stored as given. *)
Definition Tensor_init `{TensorLib} (a : PyObj Expr) (c : string) : Res Tensor :=
  x <- ext (Tensor_array a c) ;;
  Ok {| arr := x; config := c |}.

(** [Tensor.tensor()] *)
Definition tensor `{Sympy} (t : Tensor) : NDimArray Expr := arr t.

(** The base constructor takes a sympy Array with a configuration over u and
    l as it is (the constructors' docstrings: TypeError is for an [arr] that
    is neither a list nor a sympy Array). *)
Definition Tensor_accepts_arrays `{TensorLib} : Prop :=
  forall (a : NDimArray Expr) (c : string),
    is_config c = true -> Tensor_array (PyArray a) c = Ok a.

(** einsteinpy.symbolic.christoffel and einsteinpy.symbolic.riemann. *)
Class Curvature `{TensorLib} : Type := {
  Christoffel : Type;
  Riemann : Type;
  ChristoffelSymbols_from_metric : Metric -> result EngineExc Christoffel;
  RiemannCurvatureTensor_from_christoffels :
    Christoffel -> option Metric -> result EngineExc Riemann;
  RiemannCurvatureTensor_from_metric : Metric -> result EngineExc Riemann;
  riemann_config : Riemann -> string;
  riemann_tensor : Riemann -> NDimArray Expr;
  riemann_syms : Riemann -> PyObj Expr;
  riemann_parent_metric : Riemann -> option Metric;
  (** [riemann.change_config(newconfig, metric)] *)
  riemann_change_config :
    Riemann -> string -> option Metric -> result EngineExc Riemann
}.

(** ** ricci.py: class RicciTensor *)

Record RicciTensor `{TensorLib} : Type := mkRicciTensor {
  ricci_base : Tensor;
  ricci_order : nat;
  ricci_parent_metric : option Metric;
  ricci_syms : PyObj Expr;
  ricci_dims : nat
}.

(** [RicciTensor.__init__(arr, syms, config="ll", parent_metric=None)]: the
    base constructor, then the check of [syms], then the check of the
    configuration length against the order. *)
Definition RicciTensor_init `{TensorLib} (a : PyObj Expr) (syms : PyObj Expr)
  (c : string) (parent_metric : option Metric) : Res RicciTensor :=
  base <- Tensor_init a c ;;
  let order := 2 in
  match seq_len syms with
  | Some n =>
      if negb (String.length c =? order)
      then Raise (ValueError "config should be of length 2")
      else Ok {| ricci_base := base; ricci_order := order;
                 ricci_parent_metric := parent_metric;
                 ricci_syms := syms; ricci_dims := n |}
  | None => Raise (TypeError "syms should be a list or tuple")
  end.

(** The property [parent_metric] and the inherited property [config]. *)
Definition ricci_config `{TensorLib} (t : RicciTensor) : string :=
  config (ricci_base t).

(** [RicciTensor.from_riemann(riemann, parent_metric=None)] *)
Definition RicciTensor_from_riemann `{Curvature} (riemann : Riemann)
  (parent_metric : option Metric) : Res RicciTensor :=
  riemann <- (if negb (riemann_config riemann =? "ulll")%string
              then ext (riemann_change_config riemann "ulll" parent_metric)
              else Ok riemann) ;;
  let parent_metric :=
    match parent_metric with
    | None => riemann_parent_metric riemann
    | Some m => Some m
    end in
  c <- ext (tensorcontraction (riemann_tensor riemann) 0 2) ;;
  RicciTensor_init c (riemann_syms riemann) "ll" parent_metric.

(** [RicciTensor.from_christoffels(chris, parent_metric=None)] *)
Definition RicciTensor_from_christoffels `{Curvature} (chris : Christoffel)
  (parent_metric : option Metric) : Res RicciTensor :=
  rt <- ext (RiemannCurvatureTensor_from_christoffels chris parent_metric) ;;
  RicciTensor_from_riemann rt None.

(** [RicciTensor.from_metric(metric)] *)
Definition RicciTensor_from_metric `{Curvature} (metric : Metric)
  : Res RicciTensor :=
  ch <- ext (ChristoffelSymbols_from_metric metric) ;;
  RicciTensor_from_christoffels ch None.

Definition no_parent_metric : string :=
  "Parent Metric not found, can't do configuration change".

(** [RicciTensor.change_config(self, newconfig="ul", metric=None)] *)
Definition RicciTensor_change_config `{TensorLib} (self : RicciTensor)
  (newconfig : string) (metric : option Metric) : Res RicciTensor :=
  let metric :=
    match metric with
    | None => ricci_parent_metric self
    | Some m => Some m
    end in
  match metric with
  | None => Raise (Exception no_parent_metric)
  | Some metric =>
      new_tensor <- ext (_change_config (ricci_base self) metric newconfig) ;;
      RicciTensor_init new_tensor (ricci_syms self) newconfig (Some metric)
  end.

(** [RicciTensor.symbols(self)] *)
Definition RicciTensor_symbols `{TensorLib} (self : RicciTensor) : PyObj Expr :=
  ricci_syms self.

(** ** ricci.py: class RicciScalar *)

Record RicciScalar `{TensorLib} : Type := mkRicciScalar {
  scalar_order : nat;
  scalar_parent_metric : option Metric;
  scalar_expr : PyObj Expr;
  scalar_syms : PyObj Expr;
  scalar_dims : nat
}.

(** [RicciScalar.__init__(expression, syms, parent_metric=None)] *)
Definition RicciScalar_init `{TensorLib} (expression : PyObj Expr)
  (syms : PyObj Expr) (parent_metric : option Metric) : Res RicciScalar :=
  match seq_len syms with
  | Some n =>
      Ok {| scalar_order := 0; scalar_parent_metric := parent_metric;
            scalar_expr := expression; scalar_syms := syms;
            scalar_dims := n |}
  | None => Raise (TypeError "syms should be a list or tuple")
  end.

(** [RicciScalar.from_riccitensor(riccitensor, parent_metric=None)] *)
Definition RicciScalar_from_riccitensor `{TensorLib} (riccitensor : RicciTensor)
  (parent_metric : option Metric) : Res RicciScalar :=
  riccitensor <- (if negb (ricci_config riccitensor =? "ul")%string
                  then RicciTensor_change_config riccitensor "ul" parent_metric
                  else Ok riccitensor) ;;
  let parent_metric :=
    match parent_metric with
    | None => ricci_parent_metric riccitensor
    | Some m => Some m
    end in
  ricci_scalar <- ext (tensorcontraction (tensor (ricci_base riccitensor)) 0 1) ;;
  RicciScalar_init ricci_scalar (ricci_syms riccitensor) parent_metric.

(** [RicciScalar.from_riemann(riemann, parent_metric=None)] *)
Definition RicciScalar_from_riemann `{Curvature} (riemann : Riemann)
  (parent_metric : option Metric) : Res RicciScalar :=
  cg <- RicciTensor_from_riemann riemann parent_metric ;;
  RicciScalar_from_riccitensor cg None.

(** [RicciScalar.from_christoffels(chris, parent_metric=None)] *)
Definition RicciScalar_from_christoffels `{Curvature} (chris : Christoffel)
  (parent_metric : option Metric) : Res RicciScalar :=
  rt <- ext (RiemannCurvatureTensor_from_christoffels chris parent_metric) ;;
  RicciScalar_from_riemann rt None.

(** [RicciScalar.from_metric(metric)] *)
Definition RicciScalar_from_metric `{Curvature} (metric : Metric)
  : Res RicciScalar :=
  ch <- ext (ChristoffelSymbols_from_metric metric) ;;
  RicciScalar_from_christoffels ch None.

(** ** weyl.py: class WeylTensor *)

Record WeylTensor `{TensorLib} : Type := mkWeylTensor {
  weyl_base : Tensor;
  weyl_order : nat;
  weyl_parent_metric : option Metric;
  weyl_syms : PyObj Expr;
  weyl_dims : nat
}.

(** [WeylTensor.__init__(arr, syms, config="ulll", parent_metric=None)] *)
Definition WeylTensor_init `{TensorLib} (a : PyObj Expr) (syms : PyObj Expr)
  (c : string) (parent_metric : option Metric) : Res WeylTensor :=
  base <- Tensor_init a c ;;
  let order := 4 in
  match seq_len syms with
  | Some n =>
      if negb (String.length c =? order)
      then Raise (ValueError "config should be of length 4")
      else Ok {| weyl_base := base; weyl_order := order;
                 weyl_parent_metric := parent_metric;
                 weyl_syms := syms; weyl_dims := n |}
  | None => Raise (TypeError "syms should be a list or tuple")
  end.

Definition weyl_config `{TensorLib} (t : WeylTensor) : string :=
  config (weyl_base t).

(** [WeylTensor.change_config(self, newconfig="llll", metric=None)] *)
Definition WeylTensor_change_config `{TensorLib} (self : WeylTensor)
  (newconfig : string) (metric : option Metric) : Res WeylTensor :=
  let metric :=
    match metric with
    | None => weyl_parent_metric self
    | Some m => Some m
    end in
  match metric with
  | None => Raise (Exception no_parent_metric)
  | Some metric =>
      new_tensor <- ext (_change_config (weyl_base self) metric newconfig) ;;
      WeylTensor_init new_tensor (weyl_syms self) newconfig (Some metric)
  end.

(** [WeylTensor.symbols(self)] *)
Definition WeylTensor_symbols `{TensorLib} (self : WeylTensor) : PyObj Expr :=
  weyl_syms self.

(** *** Python lists of lists, as [np.zeros(...).tolist()] builds them *)

(** [l[i]] *)
Definition list_getitem `{Sympy} {A : Type} (l : list A) (i : nat) : Res A :=
  match nth_error l i with
  | Some x => Ok x
  | None => Raise (IndexError "list index out of range")
  end.

(** The list [l] with item [i] replaced by [v]. *)
Definition list_update {A : Type} (l : list A) (i : nat) (v : A) : list A :=
  firstn i l ++ v :: skipn (S i) l.

Arguments list_update : simpl never.

(** [l[i] = v] *)
Definition list_setitem `{Sympy} {A : Type} (l : list A) (i : nat) (v : A)
  : Res (list A) :=
  if i <? length l
  then Ok (list_update l i v)
  else Raise (IndexError "list assignment index out of range").

Definition List4 `{Sympy} : Type := list (list (list (list Expr))).

(** [C[i][k][l][m] = v].  The inner lists of [tolist()] are distinct
    objects, so the assignment changes this one cell. *)
Definition setitem4 `{Sympy} (C : List4) (i k l m : nat) (v : Expr) : Res List4 :=
  Ci <- list_getitem C i ;;
  Cik <- list_getitem Ci k ;;
  Cikl <- list_getitem Cik l ;;
  Cikl' <- list_setitem Cikl m v ;;
  Cik' <- list_setitem Cik l Cikl' ;;
  Ci' <- list_setitem Ci k Cik' ;;
  list_setitem C i Ci'.

(** [np.zeros(shape=(d, d, d, d), dtype=int).tolist()]; the integer 0 of a
    cell is the expression [of_int 0] once it is in a sympy Array. *)
Definition zeros4 `{Sympy} (d : nat) : List4 :=
  repeat (repeat (repeat (repeat (of_int 0) d) d) d) d.

(** [sympy.Array(np.zeros(shape, dtype=int))] *)
Definition zeros `{Sympy} (sh : list nat) : NDimArray Expr :=
  {| shape := sh; entries := repeat (of_int 0) (fold_right Nat.mul 1 sh) |}.

(** The lists of one nesting level all have the length of the first. *)
Definition uniform {A : Type} (n : nat) (L : list (list A)) : bool :=
  forallb (fun l => length l =? n) L.

(** [sympy.Array(C)] for a list nested four deep: the shape is read off the
    nesting and the cells are laid out in row-major order; a ragged list is
    refused. *)
Definition sympy_Array4 `{Sympy} (C : List4)
  : Res (NDimArray Expr) :=
  let d1 := length C in
  let C1 := concat C in
  let d2 := length (hd [] C) in
  let C2 := concat C1 in
  let d3 := length (hd [] C1) in
  let d4 := length (hd [] C2) in
  if uniform d2 C && uniform d3 C1 && uniform d4 C2
  then Ok {| shape := [d1; d2; d3; d4]; entries := concat C2 |}
  else Raise (Engine ragged).

(** [for t in ts: state = body(t, state)] *)
Fixpoint for_range `{Sympy} {S : Type} (ts : list nat)
  (body : nat -> S -> Res S) (s : S) : Res S :=
  match ts with
  | [] => Ok s
  | t :: ts' => s' <- body t s ;; for_range ts' body s'
  end.

(** *** WeylTensor.from_metric *)

(** The index quadruple of loop counter [t]:
    [t % dims], [int(t / dims) % dims], [int(t / dims ** 2) % dims],
    [int(t / dims ** 3) % dims].  [t / dims] is a float division that
    [int] truncates; for the counters of the loop it is the integer
    quotient. *)
Definition weyl_indices (dims t : nat) : nat * nat * nat * nat :=
  (t mod dims, (t / dims) mod dims, (t / dims ^ 2) mod dims,
   (t / dims ^ 3) mod dims).

(** The right-hand side of the assignment to [C[i][k][l][m]], its operands
    read in Python's order of evaluation; [r_scalar.expr] enters the
    arithmetic at its product, after the components of [g] in that product
    are read.  Indexing a tensor object ([t_ricci[i, m]], [g[k, l]],
    [t_riemann_cov[i, k, l, m]]) is indexing its array. *)
Definition weyl_rhs `{Sympy} (dims : nat) (t_riemann_cov t_ricci g : NDimArray Expr)
  (r_scalar_expr : PyObj Expr) (i k l m : nat) : Res Expr :=
  R <- getitem t_riemann_cov [i; k; l; m] ;;
  ric_im <- getitem t_ricci [i; m] ;;
  g_kl <- getitem g [k; l] ;;
  ric_il <- getitem t_ricci [i; l] ;;
  g_km <- getitem g [k; m] ;;
  ric_kl <- getitem t_ricci [k; l] ;;
  g_im <- getitem g [i; m] ;;
  ric_km <- getitem t_ricci [k; m] ;;
  g_il <- getitem g [i; l] ;;
  g_il' <- getitem g [i; l] ;;
  g_km' <- getitem g [k; m] ;;
  g_im' <- getitem g [i; m] ;;
  g_kl' <- getitem g [k; l] ;;
  rs <- operand r_scalar_expr ;;
  Ok (add R
        (add
           (div
              (sub (add (sub (mul ric_im g_kl) (mul ric_il g_km))
                        (mul ric_kl g_im))
                   (mul ric_km g_il))
              (of_int (Z.of_nat dims - 2)))
           (div
              (mul rs (sub (mul g_il' g_km') (mul g_im' g_kl')))
              (of_int ((Z.of_nat dims - 1) * (Z.of_nat dims - 2)))))).

(** One turn of [for t in range(dims ** 4)]: the right-hand side is
    evaluated, then stored. *)
Definition weyl_body `{Sympy} (dims : nat) (t_riemann_cov t_ricci g : NDimArray Expr)
  (r_scalar_expr : PyObj Expr) (t : nat) (C : List4) : Res List4 :=
  let '(i, k, l, m) := weyl_indices dims t in
  v <- weyl_rhs dims t_riemann_cov t_ricci g r_scalar_expr i k l m ;;
  setitem4 C i k l m v.

Definition dimension_too_small : string :=
  "Dimension of the space/space-time should be 3 or more".

(** [WeylTensor.from_metric(metric)] *)
Definition WeylTensor_from_metric `{Curvature} (metric : Metric)
  : Res WeylTensor :=
  if 3 <? metric_dims metric then
    metric_cov <- (if (metric_config metric =? "uu")%string
                   then ext (metric_inv metric)
                   else Ok metric) ;;
    t_riemann <- ext (RiemannCurvatureTensor_from_metric metric) ;;
    t_riemann_cov <- ext (riemann_change_config t_riemann "llll" None) ;;
    t_ricci <- RicciTensor_from_riemann t_riemann None ;;
    r_scalar <- RicciScalar_from_riccitensor t_ricci None ;;
    let g := metric_cov in
    let dims := metric_dims g in
    let C := zeros4 dims in
    C <- for_range (seq 0 (dims ^ 4))
           (weyl_body dims (riemann_tensor t_riemann_cov)
              (tensor (ricci_base t_ricci)) (metric_tensor g)
              (scalar_expr r_scalar))
           C ;;
    A <- sympy_Array4 C ;;
    let C := simplify A in
    WeylTensor_init (PyArray C) (metric_syms metric) "llll" (Some metric)
  else if metric_dims metric =? 3 then
    WeylTensor_init (PyArray (zeros [3; 3])) (metric_syms metric) "llll"
      (Some metric)
  else Raise (ValueError dimension_too_small).

(** ** Method calls on instances of the three classes *)

Inductive Instance `{TensorLib} : Type :=
| ARicciTensor (t : RicciTensor)
| ARicciScalar (s : RicciScalar)
| AWeylTensor (w : WeylTensor).

(** [obj.change_config(newconfig, metric)], an omitted [newconfig] taking the
    default of the method found.  [RicciTensor] and [WeylTensor] define the
    method; [class RicciScalar] defines none and has no base class, so the
    attribute lookup fails. *)
Definition call_change_config `{TensorLib} (obj : Instance)
  (newconfig : option string) (metric : option Metric) : Res Instance :=
  match obj with
  | ARicciTensor t =>
      r <- RicciTensor_change_config t
             (match newconfig with Some c => c | None => "ul" end) metric ;;
      Ok (ARicciTensor r)
  | ARicciScalar _ =>
      Raise (AttributeError
               "'RicciScalar' object has no attribute 'change_config'")
  | AWeylTensor w =>
      r <- WeylTensor_change_config w
             (match newconfig with Some c => c | None => "llll" end) metric ;;
      Ok (AWeylTensor r)
  end.

(** ** A model of the index-raising and lowering routine *)

(** Modelled from the spec: [MetricTensor] (einsteinpy.symbolic.metric) is
    not part of the sources.  A metric is kept with its coordinate symbols,
    its configuration, and its covariant and contravariant components; its
    dimension is the number of symbols, as in the constructors of ricci.py
    and weyl.py. *)
Record ModelMetric `{Sympy} : Type := mkMetric {
  model_syms : list Expr;
  model_config : string;
  model_cov : NDimArray Expr;
  model_contra : NDimArray Expr
}.

Definition model_tensor `{Sympy} (g : ModelMetric) : NDimArray Expr :=
  if (model_config g =? "uu")%string then model_contra g else model_cov g.

Definition model_inv `{Sympy} (g : ModelMetric) : ModelMetric :=
  {| model_syms := model_syms g;
     model_config := if (model_config g =? "uu")%string then "ll" else "uu";
     model_cov := model_cov g;
     model_contra := model_contra g |}.

(** One axis: unchanged when its label stays; contracted with the
    contravariant metric when it is raised (new label u) and with the
    covariant metric when it is lowered (new label l). *)
Definition change_axis `{Sympy} (g : ModelMetric) (p : nat) (o n : ascii)
  (t : NDimArray Expr) : NDimArray Expr :=
  if Ascii.eqb o n then t
  else contract_axis (of_int 0) add mul
         (if Ascii.eqb n "u" then model_contra g else model_cov g) p t.

(** Axis by axis, from the first. *)
Fixpoint change_axes `{Sympy} (g : ModelMetric) (p : nat) (old new : string)
  (t : NDimArray Expr) : NDimArray Expr :=
  match old, new with
  | String o old', String n new' =>
      change_axes g (S p) old' new' (change_axis g p o n t)
  | _, _ => t
  end.

(** Modelled from the spec: [_change_config] (einsteinpy.symbolic.tensor) is
    not part of the sources; the spec calls it the index raising/lowering
    routine that needs a metric tensor and a target configuration string.
    The target must be a configuration with one label per axis of the
    tensor. *)
Definition model_change_config `{Sympy} (refused : EngineExc) (t : Tensor)
  (g : ModelMetric) (newconfig : string) : result EngineExc (PyObj Expr) :=
  if is_config newconfig
     && (String.length newconfig =? String.length (config t))
     && (String.length newconfig =? rank (arr t))
  then Ok (PyArray (change_axes g 0 (config t) newconfig (arr t)))
  else Raise refused.

(** Modelled from the spec: the base constructor [Tensor.__init__] is not
    part of the sources; a sympy Array with a configuration over u and l is
    stored as it is, anything else is refused. *)
Definition model_Tensor_array `{Sympy} (refused : EngineExc) (a : PyObj Expr)
  (c : string) : result EngineExc (NDimArray Expr) :=
  match a with
  | PyArray x => if is_config c then Ok x else Raise refused
  | _ => Raise refused
  end.

Definition ModelTensorLib `{Sympy} (refused : EngineExc) : TensorLib :=
  {| Metric := ModelMetric;
     metric_dims := fun g => length (model_syms g);
     metric_config := model_config;
     metric_syms := fun g => PyTuple (model_syms g);
     metric_tensor := model_tensor;
     metric_inv := fun g => Ok (model_inv g);
     Tensor_array := model_Tensor_array refused;
     _change_config := model_change_config refused |}.

(** ** A concrete engine: integer constants *)

(** Expressions are integers (constant, so every derivative vanishes),
    simplification has nothing to do, and the quotient is the integer one. *)
Definition ZContraction (a : NDimArray Z) (p q : nat)
  : result string (PyObj Z) :=
  match contraction 0%Z Z.add a p q with
  | Some ([], vals) => Ok (PyExpr (hd 0%Z vals))
  | Some (rest, vals) => Ok (PyArray {| shape := rest; entries := vals |})
  | None => Raise "axes do not fit the array"
  end.

Definition ZSympy : Sympy :=
  {| Expr := Z;
     EngineExc := string;
     of_int := fun z => z;
     add := Z.add;
     sub := Z.sub;
     mul := Z.mul;
     div := Z.div;
     simplify := fun a => a;
     tensorcontraction := ZContraction;
     bad_index := "index out of border";
     ragged := "could not determine shape unambiguously";
     operand_other := fun _ => Raise "scalar expected" |}.

Definition ZTensorLib : @TensorLib ZSympy :=
  @ModelTensorLib ZSympy "refused".

(** With constant components the Christoffel symbols and the Riemann tensor
    of a metric vanish; raising or lowering an index of the zero tensor
    leaves it zero. *)
Record FlatRiemann : Type := mkFlatRiemann {
  flat_config : string;
  flat_metric : @ModelMetric ZSympy
}.

Definition flat_change_config (r : FlatRiemann) (newconfig : string)
  (metric : option (@ModelMetric ZSympy)) : result string FlatRiemann :=
  if is_config newconfig && (String.length newconfig =? 4)
  then Ok {| flat_config := newconfig;
             flat_metric := match metric with
                            | Some g => g
                            | None => flat_metric r
                            end |}
  else Raise "refused".

Definition ZCurvature : @Curvature ZSympy ZTensorLib :=
  @Build_Curvature ZSympy ZTensorLib
    (* Christoffel *) (@ModelMetric ZSympy)
    (* Riemann *) FlatRiemann
    (* ChristoffelSymbols.from_metric *) (fun g => Ok g)
    (* RiemannCurvatureTensor.from_christoffels *)
    (fun ch parent =>
       Ok {| flat_config := "ulll";
             flat_metric := match parent with Some g => g | None => ch end |})
    (* RiemannCurvatureTensor.from_metric *)
    (fun g => Ok {| flat_config := "ulll"; flat_metric := g |})
    (* config *) flat_config
    (* tensor() *)
    (fun r =>
       let n := length (model_syms (flat_metric r)) in
       @zeros ZSympy [n; n; n; n])
    (* syms *) (fun r => PyTuple (model_syms (flat_metric r)))
    (* parent_metric *) (fun r => Some (flat_metric r))
    (* change_config *) flat_change_config.

(** Euclidean 2- and 3-space and Minkowski space (each diagonal metric here
    is its own inverse), with coordinate symbols numbered from 1. *)
Definition diag (ds : list Z) : NDimArray Z :=
  let n := length ds in
  tabulate [n; n]
    (fun idx =>
       match idx with
       | [i; k] => if i =? k then nth i ds 0%Z else 0%Z
       | _ => 0%Z
       end).

Definition diag_metric (ds : list Z) : @ModelMetric ZSympy :=
  @mkMetric ZSympy (map Z.of_nat (seq 1 (length ds))) "ll" (diag ds) (diag ds).

Definition euclid2 : @ModelMetric ZSympy := diag_metric [1; 1]%Z.
Definition euclid3 : @ModelMetric ZSympy := diag_metric [1; 1; 1]%Z.
Definition minkowski : @ModelMetric ZSympy := diag_metric [-1; 1; 1; 1]%Z.

(** ** Predicates used in the statements *)

(** The result is a ValueError raised by one of the two modules. *)
Definition raises_ValueError {X A : Type} (r : result (PyExc X) A) : Prop :=
  exists msg : string, r = Raise (ValueError msg).

(** The metric that [change_config] resolves: the argument, else the stored
    parent metric. *)
Definition resolve_metric {M : Type} (metric stored : option M) : option M :=
  match metric with
  | None => stored
  | Some m => Some m
  end.

(** The cell [C[i][k][l][m]] of a list nested four deep, when it exists. *)
Definition get4 `{Sympy} (C : List4) (i k l m : nat) : option Expr :=
  match nth_error C i with
  | Some Ci =>
      match nth_error Ci k with
      | Some Cik =>
          match nth_error Cik l with
          | Some Cikl => nth_error Cikl m
          | None => None
          end
      | None => None
      end
  | None => None
  end.

(** Lists nested one to four deep with [d] items at every level. *)
Definition regular1 {A : Type} (d : nat) (l : list A) : Prop := length l = d.

Definition regular2 {A : Type} (d : nat) (L : list (list A)) : Prop :=
  length L = d /\ Forall (regular1 d) L.

Definition regular3 {A : Type} (d : nat) (L : list (list (list A))) : Prop :=
  length L = d /\ Forall (regular2 d) L.

Definition regular4 {A : Type} (d : nat) (L : list (list (list (list A))))
  : Prop :=
  length L = d /\ Forall (regular3 d) L.

(** The counter of the loop turn that writes cell (i, k, l, m). *)
Definition weyl_counter (d i k l m : nat) : nat :=
  i + k * d + l * d ^ 2 + m * d ^ 3.

(** A square array of rank [r] and side [n], with all its entries. *)
Definition square {T : Type} (r n : nat) (a : NDimArray T) : Prop :=
  shape a = repeat n r /\ length (entries a) = size (repeat n r).

(** Kronecker's delta. *)
Definition delta `{Sympy} (i k : nat) : Expr :=
  if i =? k then of_int 1 else of_int 0.

(** The matrix product [M N] at row [i] and column [k]. *)
Definition matrix_product `{Sympy} (n : nat) (M N : NDimArray Expr)
  (i k : nat) : Expr :=
  sum_n (of_int 0) add n
    (fun j => mul (entry (of_int 0) M [i; j]) (entry (of_int 0) N [j; k])).

(** The covariant and contravariant components of a metric of dimension [n]
    are n x n matrices, inverse to each other. *)
Definition metric_inverse `{Sympy} (n : nat) (g : ModelMetric) : Prop :=
  square 2 n (model_cov g) /\ square 2 n (model_contra g) /\
  (forall i k, i < n -> k < n ->
     matrix_product n (model_cov g) (model_contra g) i k = delta i k) /\
  (forall i k, i < n -> k < n ->
     matrix_product n (model_contra g) (model_cov g) i k = delta i k).

(** The Weyl decomposition at one index quadruple, from the components of
    the covariant Riemann tensor [R], the Ricci tensor [Ric], the covariant
    metric [g] and the Ricci scalar [Rs] in dimension [n]:
    R[i,k,l,m]
    + (Ric[i,m] g[k,l] - Ric[i,l] g[k,m] + Ric[k,l] g[i,m] - Ric[k,m] g[i,l])
      / (n - 2)
    + Rs (g[i,l] g[k,m] - g[i,m] g[k,l]) / ((n - 1) (n - 2)),
    the last two terms added first, as the code groups them. *)
Definition weyl_component `{Sympy} (n : nat) (R Ric g : NDimArray Expr)
  (Rs : Expr) (i k l m : nat) : Expr :=
  let R_ := entry (of_int 0) R in
  let Ric_ := entry (of_int 0) Ric in
  let g_ := entry (of_int 0) g in
  add (R_ [i; k; l; m])
    (add
       (div
          (sub (add (sub (mul (Ric_ [i; m]) (g_ [k; l]))
                         (mul (Ric_ [i; l]) (g_ [k; m])))
                    (mul (Ric_ [k; l]) (g_ [i; m])))
               (mul (Ric_ [k; m]) (g_ [i; l])))
          (of_int (Z.of_nat n - 2)))
       (div
          (mul Rs (sub (mul (g_ [i; l]) (g_ [k; m]))
                       (mul (g_ [i; m]) (g_ [k; l]))))
          (of_int ((Z.of_nat n - 1) * (Z.of_nat n - 2))))).

(** ** Outcomes and invariants *)

Definition syms_not_sequence : string := "syms should be a list or tuple".

(** The call returns, or fails inside a collaborator, or raises one of the
    listed exceptions of the two modules. *)
Definition outcome_among `{Sympy} {A : Type} (es : list Exc) (r : Res A)
  : Prop :=
  (exists a : A, r = Ok a) \/
  (exists x : EngineExc, r = Raise (Engine x)) \/
  (exists e : Exc, In e es /\ r = Raise e).

(** What the constructors establish. *)
Definition RicciTensor_wf `{TensorLib} (t : RicciTensor) : Prop :=
  ricci_order t = 2 /\ String.length (ricci_config t) = 2 /\
  seq_len (ricci_syms t) = Some (ricci_dims t).

Definition WeylTensor_wf `{TensorLib} (w : WeylTensor) : Prop :=
  weyl_order w = 4 /\ String.length (weyl_config w) = 4 /\
  seq_len (weyl_syms w) = Some (weyl_dims w).

Definition RicciScalar_wf `{TensorLib} (s : RicciScalar) : Prop :=
  scalar_order s = 0 /\ seq_len (scalar_syms s) = Some (scalar_dims s).

(** The covariant metric that [WeylTensor.from_metric] works with. *)
Definition covariant_metric `{TensorLib} (metric : Metric) : Res Metric :=
  if (metric_config metric =? "uu")%string then ext (metric_inv metric)
  else Ok metric.

(** The flat engine with Riemann tensors that carry no parent metric, as
    when they are constructed from an array alone. *)
Definition ZCurvatureDetached : @Curvature ZSympy ZTensorLib :=
  @Build_Curvature ZSympy ZTensorLib
    (@ModelMetric ZSympy) FlatRiemann
    (fun g => Ok g)
    (fun ch parent =>
       Ok {| flat_config := "ulll";
             flat_metric := match parent with Some g => g | None => ch end |})
    (fun g => Ok {| flat_config := "ulll"; flat_metric := g |})
    flat_config
    (fun r =>
       let n := length (model_syms (flat_metric r)) in
       @zeros ZSympy [n; n; n; n])
    (fun r => PyTuple (model_syms (flat_metric r)))
    (fun _ => None)
    flat_change_config.

(** The integer engine with the quotient that truncates towards zero. *)
Definition ZQuotSympy : Sympy :=
  {| Expr := Z;
     EngineExc := string;
     of_int := fun z => z;
     add := Z.add;
     sub := Z.sub;
     mul := Z.mul;
     div := Z.quot;
     simplify := fun a => a;
     tensorcontraction := ZContraction;
     bad_index := "index out of border";
     ragged := "could not determine shape unambiguously";
     operand_other := fun _ => Raise "scalar expected" |}.

(** * Properties *)

(** ** The result monad *)

Lemma bind_Ok {E A B : Type} (r : result E A) (k : A -> result E B) (a : A) :
  r = Ok a -> bind r k = k a.
Proof. intros ->. reflexivity. Qed.

Lemma bind_Raise {E A B : Type} (r : result E A) (k : A -> result E B) (e : E) :
  r = Raise e -> bind r k = Raise e.
Proof. intros ->. reflexivity. Qed.

Lemma bind_inv {E A B : Type} (r : result E A) (k : A -> result E B) (b : B) :
  bind r k = Ok b -> exists a, r = Ok a /\ k a = Ok b.
Proof.
  destruct r as [a|e]; simpl; intros Hk.
  - exists a. split; [reflexivity | exact Hk].
  - discriminate Hk.
Qed.

Lemma bind_assoc {E A B C : Type} (r : result E A) (k : A -> result E B)
  (h : B -> result E C) :
  bind (bind r k) h = bind r (fun a => bind (k a) h).
Proof. destruct r; reflexivity. Qed.

Lemma ext_Ok {X A : Type} (r : result X A) (a : A) :
  r = Ok a -> ext r = Ok a.
Proof. intros ->. reflexivity. Qed.

Lemma ext_not_ValueError {X A : Type} (r : result X A) :
  ~ raises_ValueError (ext r).
Proof. destruct r; intros [msg Hmsg]; discriminate Hmsg. Qed.

Lemma bind_not_ValueError {X A B : Type} (r : result (PyExc X) A)
  (k : A -> result (PyExc X) B) :
  ~ raises_ValueError r ->
  (forall a, r = Ok a -> ~ raises_ValueError (k a)) ->
  ~ raises_ValueError (bind r k).
Proof.
  intros Hr Hk. destruct r as [a|e]; simpl.
  - apply Hk. reflexivity.
  - intros [msg Hmsg]. apply Hr. exists msg.
    injection Hmsg as ->. reflexivity.
Qed.

Lemma Ok_not_ValueError {X A : Type} (a : A) :
  ~ raises_ValueError (@Ok (PyExc X) A a).
Proof. intros [msg Hmsg]; discriminate Hmsg. Qed.

(** ** The constructors *)

Section Constructors.

Context `{TL : TensorLib}.

Lemma Tensor_init_Ok (a : PyObj Expr) (c : string) (x : NDimArray Expr) :
  Tensor_array a c = Ok x -> Tensor_init a c = Ok {| arr := x; config := c |}.
Proof. unfold Tensor_init. intros ->. reflexivity. Qed.

Lemma Tensor_init_Raise (a : PyObj Expr) (c : string) (e : EngineExc) :
  Tensor_array a c = Raise e -> Tensor_init a c = Raise (Engine e).
Proof. unfold Tensor_init. intros ->. reflexivity. Qed.

Lemma Tensor_init_not_ValueError (a : PyObj Expr) (c : string) :
  ~ raises_ValueError (Tensor_init a c).
Proof.
  unfold Tensor_init. destruct (Tensor_array a c); simpl;
    intros [msg Hmsg]; discriminate Hmsg.
Qed.

Lemma RicciTensor_init_Ok (a : PyObj Expr) (syms : PyObj Expr) (c : string)
  (pm : option Metric) (x : NDimArray Expr) (n : nat) :
  Tensor_array a c = Ok x -> seq_len syms = Some n -> String.length c = 2 ->
  RicciTensor_init a syms c pm =
  Ok {| ricci_base := {| arr := x; config := c |}; ricci_order := 2;
        ricci_parent_metric := pm; ricci_syms := syms; ricci_dims := n |}.
Proof.
  intros Ha Hs Hc. unfold RicciTensor_init.
  rewrite (Tensor_init_Ok _ _ Ha). simpl. rewrite Hs, Hc. reflexivity.
Qed.

Lemma WeylTensor_init_Ok (a : PyObj Expr) (syms : PyObj Expr) (c : string)
  (pm : option Metric) (x : NDimArray Expr) (n : nat) :
  Tensor_array a c = Ok x -> seq_len syms = Some n -> String.length c = 4 ->
  WeylTensor_init a syms c pm =
  Ok {| weyl_base := {| arr := x; config := c |}; weyl_order := 4;
        weyl_parent_metric := pm; weyl_syms := syms; weyl_dims := n |}.
Proof.
  intros Ha Hs Hc. unfold WeylTensor_init.
  rewrite (Tensor_init_Ok _ _ Ha). simpl. rewrite Hs, Hc. reflexivity.
Qed.

(** What a constructed Ricci tensor holds. *)
Lemma RicciTensor_init_inv (a : PyObj Expr) (syms : PyObj Expr) (c : string)
  (pm : option Metric) (t : RicciTensor) :
  RicciTensor_init a syms c pm = Ok t ->
  exists x n,
    Tensor_array a c = Ok x /\ seq_len syms = Some n /\ String.length c = 2 /\
    t = {| ricci_base := {| arr := x; config := c |}; ricci_order := 2;
           ricci_parent_metric := pm; ricci_syms := syms; ricci_dims := n |}.
Proof.
  unfold RicciTensor_init, Tensor_init. intros Hinit.
  destruct (Tensor_array a c) as [x|e]; simpl in Hinit; [|discriminate].
  destruct (seq_len syms) as [n|]; [|discriminate].
  destruct (String.length c =? 2) eqn:Hc; simpl in Hinit; [|discriminate].
  exists x, n. apply Nat.eqb_eq in Hc.
  injection Hinit as <-. repeat split; assumption || reflexivity.
Qed.

Lemma RicciTensor_init_not_ValueError (a : PyObj Expr) (syms : PyObj Expr)
  (c : string) (pm : option Metric) :
  String.length c = 2 -> ~ raises_ValueError (RicciTensor_init a syms c pm).
Proof.
  intros Hc. unfold RicciTensor_init.
  apply bind_not_ValueError; [apply Tensor_init_not_ValueError|].
  intros base _. simpl. rewrite Hc. simpl.
  destruct (seq_len syms); intros [msg Hmsg]; discriminate Hmsg.
Qed.

Lemma WeylTensor_init_not_ValueError (a : PyObj Expr) (syms : PyObj Expr)
  (c : string) (pm : option Metric) :
  String.length c = 4 -> ~ raises_ValueError (WeylTensor_init a syms c pm).
Proof.
  intros Hc. unfold WeylTensor_init.
  apply bind_not_ValueError; [apply Tensor_init_not_ValueError|].
  intros base _. simpl. rewrite Hc. simpl.
  destruct (seq_len syms); intros [msg Hmsg]; discriminate Hmsg.
Qed.

Lemma RicciScalar_init_not_ValueError (e : PyObj Expr) (syms : PyObj Expr)
  (pm : option Metric) :
  ~ raises_ValueError (RicciScalar_init e syms pm).
Proof.
  unfold RicciScalar_init.
  destruct (seq_len syms); intros [msg Hmsg]; discriminate Hmsg.
Qed.

End Constructors.

(** C5 (as amended).  The constructors of [RicciTensor] and [WeylTensor] run
    the base constructor first, whose exception propagates.  When the base
    constructor accepts the array and the configuration: a [syms] that is
    not a list or tuple raises TypeError; with a list or tuple, a
    configuration whose length differs from the order (2 for RicciTensor, 4
    for WeylTensor) raises ValueError; with a list or tuple and a
    configuration of the right length the object is built and neither error
    is raised. *)
Theorem constructors_check_syms_then_config `{TL : TensorLib}
  (a syms : PyObj Expr) (c : string) (pm : option Metric) :
  (forall e, Tensor_array a c = Raise e ->
     RicciTensor_init a syms c pm = Raise (Engine e) /\
     WeylTensor_init a syms c pm = Raise (Engine e)) /\
  (forall x, Tensor_array a c = Ok x ->
     (seq_len syms = None ->
        RicciTensor_init a syms c pm
          = Raise (TypeError "syms should be a list or tuple") /\
        WeylTensor_init a syms c pm
          = Raise (TypeError "syms should be a list or tuple")) /\
     (forall n, seq_len syms = Some n ->
        (String.length c <> 2 ->
           RicciTensor_init a syms c pm
             = Raise (ValueError "config should be of length 2")) /\
        (String.length c = 2 ->
           RicciTensor_init a syms c pm
             = Ok {| ricci_base := {| arr := x; config := c |};
                     ricci_order := 2; ricci_parent_metric := pm;
                     ricci_syms := syms; ricci_dims := n |}) /\
        (String.length c <> 4 ->
           WeylTensor_init a syms c pm
             = Raise (ValueError "config should be of length 4")) /\
        (String.length c = 4 ->
           WeylTensor_init a syms c pm
             = Ok {| weyl_base := {| arr := x; config := c |};
                     weyl_order := 4; weyl_parent_metric := pm;
                     weyl_syms := syms; weyl_dims := n |}))).
Proof.
  split.
  - intros e He. unfold RicciTensor_init, WeylTensor_init.
    rewrite (Tensor_init_Raise _ _ He). split; reflexivity.
  - intros x Hx. split.
    + intros Hs. unfold RicciTensor_init, WeylTensor_init.
      rewrite (Tensor_init_Ok _ _ Hx). simpl. rewrite Hs. split; reflexivity.
    + intros n Hs. repeat split.
      * intros Hc. unfold RicciTensor_init.
        rewrite (Tensor_init_Ok _ _ Hx). simpl. rewrite Hs.
        apply Nat.eqb_neq in Hc. rewrite Hc. reflexivity.
      * intros Hc. apply RicciTensor_init_Ok; assumption.
      * intros Hc. unfold WeylTensor_init.
        rewrite (Tensor_init_Ok _ _ Hx). simpl. rewrite Hs.
        apply Nat.eqb_neq in Hc. rewrite Hc. reflexivity.
      * intros Hc. apply WeylTensor_init_Ok; assumption.
Qed.

(** C5, run: on a 2 x 2 array with two symbols, the configuration "l" is
    refused with ValueError and "ll" is accepted. *)
Lemma constructors_check_syms_then_config_run :
  @RicciTensor_init ZSympy ZTensorLib (PyArray (@zeros ZSympy [2; 2]))
     (PyTuple [1; 2]%Z) "l" None
    = Raise (ValueError "config should be of length 2") /\
  @RicciTensor_init ZSympy ZTensorLib (PyArray (@zeros ZSympy [2; 2]))
     (PyTuple [1; 2]%Z) "ll" None
    = Ok {| ricci_base := {| arr := @zeros ZSympy [2; 2]; config := "ll" |};
            ricci_order := 2; ricci_parent_metric := None;
            ricci_syms := PyTuple [1; 2]%Z; ricci_dims := 2 |}.
Proof.
  split.
  - destruct (@constructors_check_syms_then_config ZSympy ZTensorLib
                (PyArray (@zeros ZSympy [2; 2])) (PyTuple [1; 2]%Z) "l" None)
      as [_ Hok].
    destruct (Hok (@zeros ZSympy [2; 2]) eq_refl) as [_ Hseq].
    destruct (Hseq 2 eq_refl) as [Hshort _].
    apply Hshort. simpl. lia.
  - destruct (@constructors_check_syms_then_config ZSympy ZTensorLib
                (PyArray (@zeros ZSympy [2; 2])) (PyTuple [1; 2]%Z) "ll" None)
      as [_ Hok].
    destruct (Hok (@zeros ZSympy [2; 2]) eq_refl) as [_ Hseq].
    destruct (Hseq 2 eq_refl) as [_ [Hright _]].
    apply Hright. reflexivity.
Defined.

(** C5 as stated fails: with a [syms] that is not a list or tuple and a
    configuration of the wrong length, the constructor raises the TypeError
    of the syms check, not a ValueError. *)
Lemma config_length_error_needs_valid_syms :
  String.length "l" <> 2 /\
  @RicciTensor_init ZSympy ZTensorLib (PyArray (@zeros ZSympy [2; 2]))
     PyNone "l" None
    = Raise (TypeError "syms should be a list or tuple") /\
  (raises_ValueError
     (@RicciTensor_init ZSympy ZTensorLib (PyArray (@zeros ZSympy [2; 2]))
        PyNone "l" None) -> False).
Proof.
  split; [simpl; lia|]. split; [reflexivity|].
  intros [msg Hmsg]. discriminate Hmsg.
Qed.

(** ** WeylTensor.from_metric: the dimension *)

Section FromMetricDimension.

Context `{CV : Curvature}.

Lemma WeylTensor_from_metric_small (metric : Metric) :
  metric_dims metric < 3 ->
  WeylTensor_from_metric metric = Raise (ValueError dimension_too_small).
Proof.
  intros Hd. unfold WeylTensor_from_metric.
  destruct (3 <? metric_dims metric) eqn:H3; [apply Nat.ltb_lt in H3; lia|].
  destruct (metric_dims metric =? 3) eqn:H3'; [apply Nat.eqb_eq in H3'; lia|].
  reflexivity.
Qed.

(** Dimension 3: the constructor is called on a 3 x 3 array of zeros. *)
Lemma WeylTensor_from_metric_3 (metric : Metric) :
  metric_dims metric = 3 ->
  WeylTensor_from_metric metric =
  WeylTensor_init (PyArray (zeros [3; 3])) (metric_syms metric) "llll"
    (Some metric).
Proof.
  intros Hd. unfold WeylTensor_from_metric. rewrite Hd. reflexivity.
Qed.

End FromMetricDimension.

(** C10.  The constructor of [WeylTensor] compares the configuration length
    with the order 4 and never looks at the rank of the array: given the
    base constructor's acceptance of arrays, every array, whatever its
    shape, is accepted with a list or tuple of symbols and a configuration
    of length 4; so is the 3 x 3 array of zeros (rank 2) with "llll", which
    is what [from_metric] builds and returns for a metric of dimension 3. *)
Theorem WeylTensor_init_ignores_rank `{CV : Curvature}
  (Hbase : Tensor_accepts_arrays)
  (a : NDimArray Expr) (syms : PyObj Expr) (n : nat) (c : string)
  (pm : option Metric) :
  seq_len syms = Some n -> is_config c = true -> String.length c = 4 ->
  WeylTensor_init (PyArray a) syms c pm
    = Ok {| weyl_base := {| arr := a; config := c |}; weyl_order := 4;
            weyl_parent_metric := pm; weyl_syms := syms; weyl_dims := n |} /\
  rank (zeros [3; 3]) = 2 /\
  WeylTensor_init (PyArray (zeros [3; 3])) syms "llll" pm
    = Ok {| weyl_base := {| arr := zeros [3; 3]; config := "llll" |};
            weyl_order := 4; weyl_parent_metric := pm; weyl_syms := syms;
            weyl_dims := n |} /\
  (forall metric : Metric,
     metric_dims metric = 3 -> metric_syms metric = syms ->
     WeylTensor_from_metric metric
       = Ok {| weyl_base := {| arr := zeros [3; 3]; config := "llll" |};
               weyl_order := 4; weyl_parent_metric := Some metric;
               weyl_syms := syms; weyl_dims := n |}).
Proof.
  intros Hs Hc Hlen. split; [|split; [|split]].
  - apply WeylTensor_init_Ok; [apply Hbase; exact Hc | exact Hs | exact Hlen].
  - reflexivity.
  - apply WeylTensor_init_Ok; [apply Hbase; reflexivity | exact Hs | reflexivity].
  - intros metric Hd Hm. rewrite (WeylTensor_from_metric_3 _ Hd), Hm.
    apply WeylTensor_init_Ok; [apply Hbase; reflexivity | exact Hs | reflexivity].
Qed.

Lemma ZTensorLib_accepts_arrays : @Tensor_accepts_arrays ZSympy ZTensorLib.
Proof. intros a c Hc. simpl. unfold model_Tensor_array. rewrite Hc. reflexivity. Qed.

(** C10, run: a rank-1 array of two entries is accepted with "ulll". *)
Lemma WeylTensor_init_ignores_rank_run :
  @WeylTensor_init ZSympy ZTensorLib (PyArray (@zeros ZSympy [2]))
     (PyList [7]%Z) "ulll" None
    = Ok {| weyl_base := {| arr := @zeros ZSympy [2]; config := "ulll" |};
            weyl_order := 4; weyl_parent_metric := None;
            weyl_syms := PyList [7]%Z; weyl_dims := 1 |}.
Proof.
  apply (@WeylTensor_init_ignores_rank ZSympy ZTensorLib ZCurvature
           ZTensorLib_accepts_arrays (@zeros ZSympy [2]) (PyList [7]%Z) 1
           "ulll" None); reflexivity.
Defined.

(** ** change_config without a metric *)

(** C4 (as amended).  On a [RicciTensor] and on a [WeylTensor] that stored no
    parent metric, [change_config] called with no metric raises the
    Exception "Parent Metric not found, can't do configuration change" and
    returns no object, whatever the target configuration.  [RicciScalar]
    has no [change_config]: the call fails at the attribute lookup, with or
    without a metric. *)
Theorem change_config_without_metric `{TL : TensorLib} :
  (forall (t : RicciTensor) (newconfig : option string),
     ricci_parent_metric t = None ->
     call_change_config (ARicciTensor t) newconfig None
       = Raise (Exception no_parent_metric)) /\
  (forall (w : WeylTensor) (newconfig : option string),
     weyl_parent_metric w = None ->
     call_change_config (AWeylTensor w) newconfig None
       = Raise (Exception no_parent_metric)) /\
  (forall (s : RicciScalar) (newconfig : option string)
          (metric : option Metric),
     call_change_config (ARicciScalar s) newconfig metric
       = Raise (AttributeError
                  "'RicciScalar' object has no attribute 'change_config'")).
Proof.
  repeat split.
  - intros t newconfig Hpm. simpl. unfold RicciTensor_change_config.
    rewrite Hpm. reflexivity.
  - intros w newconfig Hpm. simpl. unfold WeylTensor_change_config.
    rewrite Hpm. reflexivity.
Qed.

(** C4, run: a Weyl tensor built without a parent metric. *)
Lemma change_config_without_metric_run :
  exists w : @WeylTensor ZSympy ZTensorLib,
    @WeylTensor_init ZSympy ZTensorLib (PyArray (@zeros ZSympy [1; 1; 1; 1]))
       (PyTuple [1]%Z) "ulll" None = Ok w /\
    @call_change_config ZSympy ZTensorLib (AWeylTensor w) None None
      = Raise (Exception no_parent_metric).
Proof.
  eexists. split; [reflexivity|].
  apply (proj1 (proj2 (@change_config_without_metric ZSympy ZTensorLib))).
  reflexivity.
Defined.

(** C4 as stated fails for [RicciScalar]: on a Ricci scalar built without a
    parent metric the call does not raise the Exception of a missing metric
    but an AttributeError. *)
Lemma RicciScalar_has_no_change_config :
  exists s : @RicciScalar ZSympy ZTensorLib,
    @RicciScalar_init ZSympy ZTensorLib (PyExpr 0%Z) (PyTuple [1; 2]%Z) None
      = Ok s /\
    scalar_parent_metric s = None /\
    @call_change_config ZSympy ZTensorLib (ARicciScalar s) None None
      = Raise (AttributeError
                 "'RicciScalar' object has no attribute 'change_config'") /\
    (forall msg : string,
       @call_change_config ZSympy ZTensorLib (ARicciScalar s) None None
         = Raise (Exception msg) -> False).
Proof.
  eexists. split; [reflexivity|]. split; [reflexivity|].
  split; [reflexivity|]. intros msg Hmsg. discriminate Hmsg.
Qed.


(** C1, on the code: for Euclidean 3-space, [WeylTensor.from_metric] returns
    a tensor labelled "llll" whose array is the 3 x 3 array of zeros, of rank
    2 and with 9 entries, where the zero tensor of matching shape is
    3 x 3 x 3 x 3 with 81 entries. *)
Theorem WeylTensor_from_metric_dim3_is_rank2 :
  exists w : @WeylTensor ZSympy ZTensorLib,
    @WeylTensor_from_metric ZSympy ZTensorLib ZCurvature euclid3 = Ok w /\
    @metric_dims ZSympy ZTensorLib euclid3 = 3 /\
    shape (tensor (weyl_base w)) = [3; 3] /\
    rank (tensor (weyl_base w)) = 2 /\
    length (entries (tensor (weyl_base w))) = 9 /\
    entries (tensor (weyl_base w)) = repeat 0%Z 9 /\
    weyl_config w = "llll" /\
    weyl_parent_metric w = Some euclid3.
Proof.
  eexists. split; [reflexivity|]. repeat split.
Qed.

(** ** No ValueError of the modules' own on the way through from_metric *)

Section NoValueError.

Context `{CV : Curvature}.

Lemma getitem_not_ValueError (a : NDimArray Expr) (idx : list nat) :
  ~ raises_ValueError (getitem a idx).
Proof.
  unfold getitem. destruct (flat_index (shape a) idx 0) as [p|].
  - destruct (nth_error (entries a) p); intros [msg Hmsg]; discriminate Hmsg.
  - intros [msg Hmsg]; discriminate Hmsg.
Qed.

Lemma operand_not_ValueError (o : PyObj Expr) :
  ~ raises_ValueError (operand o).
Proof.
  destruct o; simpl; try apply ext_not_ValueError.
  apply Ok_not_ValueError.
Qed.

Lemma list_getitem_not_ValueError {A : Type} (l : list A) (i : nat) :
  ~ raises_ValueError (list_getitem l i).
Proof.
  unfold list_getitem. destruct (nth_error l i);
    intros [msg Hmsg]; discriminate Hmsg.
Qed.

Lemma list_setitem_not_ValueError {A : Type} (l : list A) (i : nat) (v : A) :
  ~ raises_ValueError (list_setitem l i v).
Proof.
  unfold list_setitem. destruct (i <? length l);
    intros [msg Hmsg]; discriminate Hmsg.
Qed.

Ltac no_ValueError :=
  repeat (apply bind_not_ValueError;
          [ first [ apply getitem_not_ValueError
                  | apply operand_not_ValueError
                  | apply list_getitem_not_ValueError
                  | apply list_setitem_not_ValueError
                  | apply ext_not_ValueError ]
          | intros ? _ ]).

Lemma weyl_rhs_not_ValueError (dims : nat) (R Ric g : NDimArray Expr)
  (rs : PyObj Expr) (i k l m : nat) :
  ~ raises_ValueError (weyl_rhs dims R Ric g rs i k l m).
Proof. unfold weyl_rhs. no_ValueError. apply Ok_not_ValueError. Qed.

Lemma setitem4_not_ValueError (C : List4) (i k l m : nat) (v : Expr) :
  ~ raises_ValueError (setitem4 C i k l m v).
Proof. unfold setitem4. no_ValueError. apply list_setitem_not_ValueError. Qed.

Lemma weyl_body_not_ValueError (dims : nat) (R Ric g : NDimArray Expr)
  (rs : PyObj Expr) (t : nat) (C : List4) :
  ~ raises_ValueError (weyl_body dims R Ric g rs t C).
Proof.
  unfold weyl_body. destruct (weyl_indices dims t) as [[[i k] l] m].
  apply bind_not_ValueError; [apply weyl_rhs_not_ValueError|].
  intros v _. apply setitem4_not_ValueError.
Qed.

Lemma for_range_not_ValueError {S : Type} (ts : list nat)
  (body : nat -> S -> Res S) (s : S) :
  (forall t s', ~ raises_ValueError (body t s')) ->
  ~ raises_ValueError (for_range ts body s).
Proof.
  intros Hbody. revert s. induction ts as [|t ts IH]; intros s; simpl.
  - apply Ok_not_ValueError.
  - apply bind_not_ValueError; [apply Hbody|]. intros s' _. apply IH.
Qed.

Lemma sympy_Array4_not_ValueError (C : List4) :
  ~ raises_ValueError (sympy_Array4 C).
Proof.
  unfold sympy_Array4.
  match goal with |- context [if ?b then _ else _] => destruct b end;
    intros [msg Hmsg]; discriminate Hmsg.
Qed.

Lemma RicciTensor_from_riemann_not_ValueError (riemann : Riemann)
  (pm : option Metric) :
  ~ raises_ValueError (RicciTensor_from_riemann riemann pm).
Proof.
  unfold RicciTensor_from_riemann.
  apply bind_not_ValueError.
  - destruct (negb (riemann_config riemann =? "ulll")%string);
      [apply ext_not_ValueError | apply Ok_not_ValueError].
  - intros r _. apply bind_not_ValueError; [apply ext_not_ValueError|].
    intros c _. apply RicciTensor_init_not_ValueError. reflexivity.
Qed.

Lemma RicciTensor_change_config_ul_not_ValueError (t : RicciTensor)
  (metric : option Metric) :
  ~ raises_ValueError (RicciTensor_change_config t "ul" metric).
Proof.
  unfold RicciTensor_change_config.
  destruct (match metric with None => ricci_parent_metric t | Some m => Some m end)
    as [g|].
  - apply bind_not_ValueError; [apply ext_not_ValueError|].
    intros nt _. apply RicciTensor_init_not_ValueError. reflexivity.
  - intros [msg Hmsg]; discriminate Hmsg.
Qed.

Lemma RicciScalar_from_riccitensor_not_ValueError (t : RicciTensor)
  (pm : option Metric) :
  ~ raises_ValueError (RicciScalar_from_riccitensor t pm).
Proof.
  unfold RicciScalar_from_riccitensor.
  apply bind_not_ValueError.
  - destruct (negb (ricci_config t =? "ul")%string);
      [apply RicciTensor_change_config_ul_not_ValueError
      | apply Ok_not_ValueError].
  - intros t' _. apply bind_not_ValueError; [apply ext_not_ValueError|].
    intros s _. apply RicciScalar_init_not_ValueError.
Qed.

Lemma WeylTensor_from_metric_large (metric : Metric) :
  3 <= metric_dims metric ->
  ~ raises_ValueError (WeylTensor_from_metric metric).
Proof.
  intros Hd. unfold WeylTensor_from_metric.
  destruct (3 <? metric_dims metric) eqn:H3.
  - apply bind_not_ValueError.
    { destruct (metric_config metric =? "uu")%string;
        [apply ext_not_ValueError | apply Ok_not_ValueError]. }
    intros g _.
    apply bind_not_ValueError; [apply ext_not_ValueError|]. intros rm _.
    apply bind_not_ValueError; [apply ext_not_ValueError|]. intros rcov _.
    apply bind_not_ValueError;
      [apply RicciTensor_from_riemann_not_ValueError|]. intros ric _.
    apply bind_not_ValueError;
      [apply RicciScalar_from_riccitensor_not_ValueError|]. intros rs _.
    apply bind_not_ValueError.
    { apply for_range_not_ValueError. intros t C.
      apply weyl_body_not_ValueError. }
    intros C _.
    apply bind_not_ValueError; [apply sympy_Array4_not_ValueError|].
    intros A _. apply WeylTensor_init_not_ValueError. reflexivity.
  - apply Nat.ltb_ge in H3.
    assert (Hd3 : metric_dims metric = 3) by lia.
    rewrite Hd3. simpl.
    apply WeylTensor_init_not_ValueError. reflexivity.
Qed.

End NoValueError.

(** C6.  For a metric of dimension below 3, [WeylTensor.from_metric] raises
    the ValueError "Dimension of the space/space-time should be 3 or more";
    for a metric of dimension 3 or more it raises neither that error nor any
    other ValueError of the two modules. *)
Theorem WeylTensor_from_metric_dimension `{CV : Curvature} (metric : Metric) :
  (metric_dims metric < 3 ->
   WeylTensor_from_metric metric = Raise (ValueError dimension_too_small)) /\
  (3 <= metric_dims metric ->
   forall msg : string,
     WeylTensor_from_metric metric = Raise (ValueError msg) -> False).
Proof.
  split.
  - apply WeylTensor_from_metric_small.
  - intros Hd msg Hmsg.
    apply (WeylTensor_from_metric_large metric Hd). exists msg. exact Hmsg.
Qed.

(** C6, run: Euclidean 2-space is refused; Minkowski space is not. *)
Lemma WeylTensor_from_metric_dimension_run :
  @WeylTensor_from_metric ZSympy ZTensorLib ZCurvature euclid2
    = Raise (ValueError dimension_too_small) /\
  (forall msg : string,
     @WeylTensor_from_metric ZSympy ZTensorLib ZCurvature minkowski
       = Raise (ValueError msg) -> False).
Proof.
  split.
  - apply (proj1 (@WeylTensor_from_metric_dimension ZSympy ZTensorLib
                    ZCurvature euclid2)).
    simpl. lia.
  - apply (proj2 (@WeylTensor_from_metric_dimension ZSympy ZTensorLib
                    ZCurvature minkowski)).
    simpl. lia.
Defined.

(** ** The derivation chain of ricci.py *)

Section RicciChain.

Context `{CV : Curvature}.

(** The conversion step of [from_riemann]. *)
Lemma RicciTensor_from_riemann_step (riemann r' : Riemann)
  (pm : option Metric) :
  (if (riemann_config riemann =? "ulll")%string then Ok riemann
   else ext (riemann_change_config riemann "ulll" pm)) = Ok r' ->
  RicciTensor_from_riemann riemann pm =
  (c <- ext (tensorcontraction (riemann_tensor r') 0 2) ;;
   RicciTensor_init c (riemann_syms r') "ll"
     (resolve_metric pm (riemann_parent_metric r'))).
Proof.
  intros Hconv. unfold RicciTensor_from_riemann.
  destruct (riemann_config riemann =? "ulll")%string; simpl in *.
  - injection Hconv as <-. reflexivity.
  - rewrite Hconv. reflexivity.
Qed.

(** Whatever [from_riemann] returns is labelled "ll" and carries a list or
    tuple of symbols. *)
Lemma RicciTensor_from_riemann_inv (riemann : Riemann) (pm : option Metric)
  (t : RicciTensor) :
  RicciTensor_from_riemann riemann pm = Ok t ->
  ricci_config t = "ll" /\ exists n, seq_len (ricci_syms t) = Some n.
Proof.
  unfold RicciTensor_from_riemann. intros Hr.
  apply bind_inv in Hr. destruct Hr as [r' [_ Hr]].
  apply bind_inv in Hr. destruct Hr as [c [_ Hr]].
  apply RicciTensor_init_inv in Hr.
  destruct Hr as [x [n [_ [Hs [_ ->]]]]].
  split; [reflexivity | exists n; exact Hs].
Qed.

End RicciChain.

(** C7.  [RicciTensor.from_riemann] works on the Riemann tensor itself when
    its configuration is "ulll" and otherwise on the result of
    [riemann.change_config("ulll", metric=parent_metric)] (the method is
    handed the supplied parent metric; with none supplied it is left to its
    own parent metric); it contracts axes (0, 2) of that tensor's array;
    the Ricci tensor built from the contraction has configuration "ll", the
    symbols of the Riemann tensor, and as parent metric the supplied one or
    else the Riemann tensor's.  Every tensor the function returns has
    configuration "ll". *)
Theorem RicciTensor_from_riemann_contracts `{CV : Curvature}
  (riemann r' : Riemann) (pm : option Metric) (c : PyObj Expr)
  (x : NDimArray Expr) (n : nat) :
  (if (riemann_config riemann =? "ulll")%string then Ok riemann
   else ext (riemann_change_config riemann "ulll" pm)) = Ok r' ->
  tensorcontraction (riemann_tensor r') 0 2 = Ok c ->
  Tensor_array c "ll" = Ok x ->
  seq_len (riemann_syms r') = Some n ->
  RicciTensor_from_riemann riemann pm
    = Ok {| ricci_base := {| arr := x; config := "ll" |}; ricci_order := 2;
            ricci_parent_metric :=
              resolve_metric pm (riemann_parent_metric r');
            ricci_syms := riemann_syms r'; ricci_dims := n |} /\
  (forall (r0 : Riemann) (pm0 : option Metric) (t : RicciTensor),
     RicciTensor_from_riemann r0 pm0 = Ok t -> ricci_config t = "ll").
Proof.
  intros Hconv Hc Hx Hs. split.
  - rewrite (RicciTensor_from_riemann_step _ _ Hconv).
    rewrite (ext_Ok Hc). simpl.
    apply RicciTensor_init_Ok; [exact Hx | exact Hs | reflexivity].
  - intros r0 pm0 t Ht.
    apply (proj1 (RicciTensor_from_riemann_inv _ _ Ht)).
Qed.

(** C7, run: a flat Riemann tensor in configuration "llll" is converted,
    then contracted to the 4 x 4 array of zeros. *)
Lemma RicciTensor_from_riemann_contracts_run :
  @RicciTensor_from_riemann ZSympy ZTensorLib ZCurvature
     {| flat_config := "llll"; flat_metric := minkowski |} None
    = Ok (@mkRicciTensor ZSympy ZTensorLib
            (@mkTensor ZSympy (@zeros ZSympy [4; 4]) "ll") 2 (Some minkowski)
            (PyTuple [1; 2; 3; 4]%Z) 4).
Proof.
  apply (@RicciTensor_from_riemann_contracts ZSympy ZTensorLib ZCurvature
           {| flat_config := "llll"; flat_metric := minkowski |}
           {| flat_config := "ulll"; flat_metric := minkowski |}
           None (PyArray (@zeros ZSympy [4; 4])) (@zeros ZSympy [4; 4]) 4);
    reflexivity.
Defined.

Section ScalarChain.

Context `{TL : TensorLib}.

Lemma RicciTensor_change_config_Ok (t : RicciTensor) (newconfig : string)
  (metric : option Metric) (g : Metric) (nt : PyObj Expr)
  (x : NDimArray Expr) (n : nat) :
  resolve_metric metric (ricci_parent_metric t) = Some g ->
  _change_config (ricci_base t) g newconfig = Ok nt ->
  Tensor_array nt newconfig = Ok x ->
  seq_len (ricci_syms t) = Some n ->
  String.length newconfig = 2 ->
  RicciTensor_change_config t newconfig metric
    = Ok {| ricci_base := {| arr := x; config := newconfig |};
            ricci_order := 2; ricci_parent_metric := Some g;
            ricci_syms := ricci_syms t; ricci_dims := n |}.
Proof.
  intros Hg Hnt Hx Hs Hc. unfold RicciTensor_change_config.
  unfold resolve_metric in Hg. rewrite Hg. rewrite (ext_Ok Hnt). simpl.
  apply RicciTensor_init_Ok; assumption.
Qed.

Lemma RicciTensor_change_config_inv (t t' : RicciTensor) (newconfig : string)
  (metric : option Metric) :
  RicciTensor_change_config t newconfig metric = Ok t' ->
  ricci_syms t' = ricci_syms t /\ ricci_config t' = newconfig /\
  exists n, seq_len (ricci_syms t) = Some n.
Proof.
  unfold RicciTensor_change_config. intros Hc.
  destruct (match metric with None => ricci_parent_metric t | Some m => Some m end)
    as [g|]; [|discriminate].
  apply bind_inv in Hc. destruct Hc as [nt [_ Hc]].
  apply RicciTensor_init_inv in Hc.
  destruct Hc as [x [n [_ [Hs [_ ->]]]]].
  split; [reflexivity|]. split; [reflexivity|]. exists n. exact Hs.
Qed.

Lemma RicciScalar_init_Ok (e syms : PyObj Expr) (pm : option Metric) (n : nat) :
  seq_len syms = Some n ->
  RicciScalar_init e syms pm
    = Ok {| scalar_order := 0; scalar_parent_metric := pm; scalar_expr := e;
            scalar_syms := syms; scalar_dims := n |}.
Proof. intros Hs. unfold RicciScalar_init. rewrite Hs. reflexivity. Qed.

(** The scalar of a Ricci tensor that is not in configuration "ul", as long
    as the tensor carries a list or tuple of symbols. *)
Lemma RicciScalar_from_riccitensor_expr (t : RicciTensor) (pm : option Metric)
  (n : nat) :
  ricci_config t <> "ul" -> seq_len (ricci_syms t) = Some n ->
  (s <- RicciScalar_from_riccitensor t pm ;; Ok (scalar_expr s)) =
  (t' <- RicciTensor_change_config t "ul" pm ;;
   ext (tensorcontraction (tensor (ricci_base t')) 0 1)).
Proof.
  intros Hc Hs. unfold RicciScalar_from_riccitensor.
  apply String.eqb_neq in Hc. rewrite Hc. simpl.
  destruct (RicciTensor_change_config t "ul" pm) as [t'|e] eqn:Ht';
    [|reflexivity].
  simpl. destruct (RicciTensor_change_config_inv _ _ _ Ht') as [Hsyms _].
  destruct (tensorcontraction (tensor (ricci_base t')) 0 1) as [s|e];
    [|reflexivity].
  simpl. rewrite Hsyms.
  rewrite RicciScalar_init_Ok with (n := n) by exact Hs. reflexivity.
Qed.

End ScalarChain.

(** C8.  [RicciScalar.from_riccitensor] contracts axes (0, 1) of the array of
    the Ricci tensor itself when its configuration is "ul"; otherwise it
    first converts the tensor with [change_config("ul", parent_metric)],
    that is with the supplied metric or else the tensor's own parent metric,
    and contracts axes (0, 1) of the converted array.  The contraction is
    the expression of the Ricci scalar returned. *)
Theorem RicciScalar_from_riccitensor_traces `{TL : TensorLib}
  (t : RicciTensor) (pm : option Metric) (s : PyObj Expr) (n : nat) :
  seq_len (ricci_syms t) = Some n ->
  (ricci_config t = "ul" ->
   tensorcontraction (tensor (ricci_base t)) 0 1 = Ok s ->
   RicciScalar_from_riccitensor t pm
     = Ok {| scalar_order := 0;
             scalar_parent_metric :=
               resolve_metric pm (ricci_parent_metric t);
             scalar_expr := s; scalar_syms := ricci_syms t;
             scalar_dims := n |}) /\
  (ricci_config t <> "ul" ->
   forall (g : Metric) (nt : PyObj Expr) (x : NDimArray Expr),
     resolve_metric pm (ricci_parent_metric t) = Some g ->
     _change_config (ricci_base t) g "ul" = Ok nt ->
     Tensor_array nt "ul" = Ok x ->
     tensorcontraction x 0 1 = Ok s ->
     RicciTensor_change_config t "ul" pm
       = Ok {| ricci_base := {| arr := x; config := "ul" |};
               ricci_order := 2; ricci_parent_metric := Some g;
               ricci_syms := ricci_syms t; ricci_dims := n |} /\
     RicciScalar_from_riccitensor t pm
       = Ok {| scalar_order := 0; scalar_parent_metric := Some g;
               scalar_expr := s; scalar_syms := ricci_syms t;
               scalar_dims := n |}).
Proof.
  intros Hs. split.
  - intros Hc Htr. unfold RicciScalar_from_riccitensor.
    apply String.eqb_eq in Hc. rewrite Hc. simpl.
    rewrite (ext_Ok Htr). simpl. apply RicciScalar_init_Ok. exact Hs.
  - intros Hc g nt x Hg Hnt Hx Htr.
    assert (Hconv := RicciTensor_change_config_Ok t "ul" pm Hg Hnt Hx Hs
                       eq_refl).
    split; [exact Hconv|].
    unfold RicciScalar_from_riccitensor.
    apply String.eqb_neq in Hc. rewrite Hc. simpl.
    rewrite Hconv. simpl. unfold tensor. simpl.
    rewrite (ext_Ok Htr). simpl.
    rewrite RicciScalar_init_Ok with (n := n) by exact Hs.
    destruct pm as [m|]; [|reflexivity].
    simpl in Hg. injection Hg as ->. reflexivity.
Qed.

(** C3.  For every metric, the expression of [RicciScalar.from_metric] is the
    contraction of axes (0, 1) of [RicciTensor.from_metric] converted to
    configuration "ul": the two derivations run the same calls, give the
    same expression (so also after simplification) when they succeed, and
    fail alike otherwise. *)
Theorem RicciScalar_from_metric_is_trace `{CV : Curvature} (metric : Metric) :
  (s <- RicciScalar_from_metric metric ;; Ok (scalar_expr s)) =
  (t <- RicciTensor_from_metric metric ;;
   t' <- RicciTensor_change_config t "ul" None ;;
   ext (tensorcontraction (tensor (ricci_base t')) 0 1)).
Proof.
  unfold RicciScalar_from_metric, RicciTensor_from_metric.
  destruct (ext (ChristoffelSymbols_from_metric metric)) as [ch|e];
    [|reflexivity].
  simpl. unfold RicciScalar_from_christoffels, RicciTensor_from_christoffels.
  destruct (ext (RiemannCurvatureTensor_from_christoffels ch None)) as [rt|e];
    [|reflexivity].
  simpl. unfold RicciScalar_from_riemann.
  destruct (RicciTensor_from_riemann rt None) as [cg|e] eqn:Hcg;
    [|reflexivity].
  simpl. destruct (RicciTensor_from_riemann_inv _ _ Hcg) as [Hll [n Hs]].
  apply RicciScalar_from_riccitensor_expr with (n := n); [|exact Hs].
  rewrite Hll. discriminate.
Qed.

(** C8, run: the Ricci tensor with covariant components diag(1, 1, 1, 1)
    over Minkowski space has the mixed components diag(-1, 1, 1, 1) and the
    scalar 2. *)
Lemma RicciScalar_from_riccitensor_traces_run :
  @RicciScalar_from_riccitensor ZSympy ZTensorLib
     (@mkRicciTensor ZSympy ZTensorLib
        (@mkTensor ZSympy (diag [1; 1; 1; 1]%Z) "ll") 2 (Some minkowski)
        (PyTuple [1; 2; 3; 4]%Z) 4)
     None
    = Ok (@mkRicciScalar ZSympy ZTensorLib 0 (Some minkowski) (PyExpr 2%Z)
            (PyTuple [1; 2; 3; 4]%Z) 4).
Proof.
  destruct (@RicciScalar_from_riccitensor_traces ZSympy ZTensorLib
              (@mkRicciTensor ZSympy ZTensorLib
                 (@mkTensor ZSympy (diag [1; 1; 1; 1]%Z) "ll") 2
                 (Some minkowski) (PyTuple [1; 2; 3; 4]%Z) 4)
              None (PyExpr 2%Z) 4 eq_refl) as [_ Hconv].
  assert (Hne : "ll" <> "ul") by discriminate.
  destruct (Hconv Hne minkowski (PyArray (diag [-1; 1; 1; 1]%Z))
              (diag [-1; 1; 1; 1]%Z) eq_refl eq_refl eq_refl eq_refl)
    as [_ Hscalar].
  exact Hscalar.
Defined.

(** ** Lists: assignment to an item, concatenation *)

Section ListFacts.

Context {A : Type}.

Lemma nth_error_update (l : list A) (i j : nat) (v : A) :
  i < length l ->
  nth_error (list_update l i v) j
    = if j =? i then Some v else nth_error l j.
Proof.
  unfold list_update. revert i j. induction l as [|x l IH]; intros i j Hi; simpl in Hi; [lia|].
  destruct i as [|i]; destruct j as [|j]; simpl; try reflexivity.
  apply IH. lia.
Qed.

Lemma length_update (l : list A) (i : nat) (v : A) :
  i < length l -> length (list_update l i v) = length l.
Proof.
  unfold list_update. revert i. induction l as [|x l IH]; intros i Hi; simpl in Hi; [lia|].
  destruct i as [|i]; simpl; [reflexivity|]. rewrite IH by lia. reflexivity.
Qed.

Lemma Forall_update (P : A -> Prop) (l : list A) (i : nat) (v : A) :
  Forall P l -> P v -> Forall P (list_update l i v).
Proof.
  unfold list_update. intros Hl Hv. revert i. induction Hl as [|x l Hx Hl IH]; intros i.
  - destruct i; simpl; constructor; auto.
  - destruct i as [|i]; simpl.
    + constructor; assumption.
    + constructor; [assumption | apply IH].
Qed.

Lemma Forall_nth_error (P : A -> Prop) (l : list A) (i : nat) (x : A) :
  Forall P l -> nth_error l i = Some x -> P x.
Proof.
  intros Hl Hx. rewrite Forall_forall in Hl. apply Hl.
  apply nth_error_In with (n := i). exact Hx.
Qed.

Lemma Forall_repeat (P : A -> Prop) (x : A) (n : nat) :
  P x -> Forall P (repeat x n).
Proof. intros Hx. induction n; simpl; constructor; assumption. Qed.

Lemma nth_error_Some_lt (l : list A) (i : nat) :
  i < length l -> exists x, nth_error l i = Some x.
Proof.
  intros Hi. destruct (nth_error l i) as [x|] eqn:Hx.
  - exists x. reflexivity.
  - apply nth_error_None in Hx. lia.
Qed.

(** In a concatenation of lists of length [d], item [i * d + j] is item
    [j] of list [i]. *)
Lemma nth_error_concat (d : nat) (L : list (list A)) (i j : nat) :
  Forall (regular1 d) L -> j < d ->
  nth_error (concat L) (i * d + j)
    = match nth_error L i with
      | Some l => nth_error l j
      | None => None
      end.
Proof.
  intros HL Hj. revert i. induction HL as [|l L Hl HL IH]; intros i.
  - simpl. destruct (i * d + j); destruct i; reflexivity.
  - unfold regular1 in Hl. destruct i as [|i]; simpl.
    + apply nth_error_app1. lia.
    + rewrite nth_error_app2 by lia.
      replace (d + i * d + j - length l) with (i * d + j) by lia.
      apply IH.
Qed.

Lemma length_concat_regular (d : nat) (L : list (list A)) :
  Forall (regular1 d) L -> length (concat L) = length L * d.
Proof.
  intros HL. induction HL as [|l L Hl HL IH]; simpl; [reflexivity|].
  unfold regular1 in Hl. rewrite length_app, IH, Hl. reflexivity.
Qed.

Lemma uniform_regular (d : nat) (L : list (list A)) :
  Forall (regular1 d) L -> uniform d L = true.
Proof.
  intros HL. unfold uniform. apply forallb_forall. intros l Hl.
  rewrite Forall_forall in HL. apply Nat.eqb_eq. apply HL. exact Hl.
Qed.

Lemma length_hd_regular (d : nat) (L : list (list A)) :
  (length L = 0 -> d = 0) -> Forall (regular1 d) L -> length (hd [] L) = d.
Proof.
  intros Hlen HL. destruct HL as [|l L Hl HL]; simpl in *.
  - symmetry. apply Hlen. reflexivity.
  - exact Hl.
Qed.

End ListFacts.

(** ** The loop of WeylTensor.from_metric *)

Section WeylLoop.

Context `{SY : Sympy}.

Lemma list_getitem_Ok {A : Type} (l : list A) (i : nat) (x : A) :
  nth_error l i = Some x -> list_getitem l i = Ok x.
Proof. unfold list_getitem. intros ->. reflexivity. Qed.

Lemma list_setitem_Ok {A : Type} (l : list A) (i : nat) (v : A) :
  i < length l ->
  list_setitem l i v = Ok (list_update l i v).
Proof.
  intros Hi. unfold list_setitem. apply Nat.ltb_lt in Hi. rewrite Hi.
  reflexivity.
Qed.

(** Assigning to a cell of a regular nested list succeeds, keeps the list
    regular, and changes that cell only. *)
Lemma setitem4_spec (d : nat) (C : List4) (i k l m : nat) (v : Expr) :
  regular4 d C -> i < d -> k < d -> l < d -> m < d ->
  exists C' : List4,
    setitem4 C i k l m v = Ok C' /\ regular4 d C' /\
    forall i' k' l' m',
      get4 C' i' k' l' m'
        = if (i' =? i) && (k' =? k) && (l' =? l) && (m' =? m)
          then Some v else get4 C i' k' l' m'.
Proof.
  intros [HlenC HC] Hi Hk Hl Hm.
  destruct (@nth_error_Some_lt _ C i) as [Ci HCi]; [lia|].
  destruct (Forall_nth_error i HC HCi) as [HlenCi HCi3].
  destruct (@nth_error_Some_lt _ Ci k) as [Cik HCik]; [lia|].
  destruct (Forall_nth_error k HCi3 HCik) as [HlenCik HCik2].
  destruct (@nth_error_Some_lt _ Cik l) as [Cikl HCikl]; [lia|].
  assert (HlenCikl : length Cikl = d)
    by exact (Forall_nth_error l HCik2 HCikl).
  eexists. split; [|split].
  - unfold setitem4.
    rewrite (list_getitem_Ok _ _ HCi). simpl.
    rewrite (list_getitem_Ok _ _ HCik). simpl.
    rewrite (list_getitem_Ok _ _ HCikl). simpl.
    rewrite (@list_setitem_Ok _ Cikl m v) by lia. simpl.
    rewrite (@list_setitem_Ok _ Cik l) by lia. simpl.
    rewrite (@list_setitem_Ok _ Ci k) by lia. simpl.
    apply list_setitem_Ok. lia.
  - split; [rewrite length_update by lia; exact HlenC|].
    apply Forall_update; [exact HC|].
    split; [rewrite length_update by lia; exact HlenCi|].
    apply Forall_update; [exact HCi3|].
    split; [rewrite length_update by lia; exact HlenCik|].
    apply Forall_update; [exact HCik2|].
    unfold regular1. rewrite length_update by lia. exact HlenCikl.
  - intros i' k' l' m'. unfold get4.
    rewrite nth_error_update by lia.
    destruct (i' =? i) eqn:Ei; simpl; [|reflexivity].
    apply Nat.eqb_eq in Ei. subst i'. rewrite HCi.
    rewrite nth_error_update by lia.
    destruct (k' =? k) eqn:Ek; simpl; [|reflexivity].
    apply Nat.eqb_eq in Ek. subst k'. rewrite HCik.
    rewrite nth_error_update by lia.
    destruct (l' =? l) eqn:El; simpl; [|reflexivity].
    apply Nat.eqb_eq in El. subst l'. rewrite HCikl.
    rewrite nth_error_update by lia.
    destruct (m' =? m); reflexivity.
Qed.

Lemma zeros4_regular (d : nat) : regular4 d (zeros4 d).
Proof.
  unfold zeros4.
  split; [apply repeat_length|]. apply Forall_repeat.
  split; [apply repeat_length|]. apply Forall_repeat.
  split; [apply repeat_length|]. apply Forall_repeat.
  apply repeat_length.
Qed.

Lemma weyl_indices_lt (d t : nat) :
  0 < d ->
  let '(i, k, l, m) := weyl_indices d t in i < d /\ k < d /\ l < d /\ m < d.
Proof.
  intros Hd. unfold weyl_indices.
  repeat split; apply Nat.mod_upper_bound; lia.
Qed.

Lemma weyl_indices_counter (d i k l m : nat) :
  i < d -> k < d -> l < d -> m < d ->
  weyl_indices d (weyl_counter d i k l m) = (i, k, l, m).
Proof.
  intros Hi Hk Hl Hm. unfold weyl_indices, weyl_counter.
  cbn [Nat.pow]. rewrite !Nat.mul_1_r.
  assert (E1 : (i + k * d + l * (d * d) + m * (d * (d * d))) mod d = i).
  { symmetry. apply Nat.mod_unique with (q := k + l * d + m * (d * d)); nia. }
  assert (E2 : (i + k * d + l * (d * d) + m * (d * (d * d))) / d
               = k + l * d + m * (d * d)).
  { symmetry. apply Nat.div_unique with (r := i); nia. }
  assert (E3 : (i + k * d + l * (d * d) + m * (d * (d * d))) / (d * d)
               = l + m * d).
  { symmetry. apply Nat.div_unique with (r := i + k * d); nia. }
  assert (E4 : (i + k * d + l * (d * d) + m * (d * (d * d))) / (d * (d * d))
               = m).
  { symmetry. apply Nat.div_unique with (r := i + k * d + l * (d * d)); nia. }
  rewrite E1, E2, E3, E4.
  assert (E5 : (k + l * d + m * (d * d)) mod d = k).
  { symmetry. apply Nat.mod_unique with (q := l + m * d); nia. }
  assert (E6 : (l + m * d) mod d = l).
  { symmetry. apply Nat.mod_unique with (q := m); nia. }
  rewrite E5, E6, (Nat.mod_small m d) by lia. reflexivity.
Qed.

Lemma weyl_counter_lt (d i k l m : nat) :
  i < d -> k < d -> l < d -> m < d -> weyl_counter d i k l m < d ^ 4.
Proof.
  intros Hi Hk Hl Hm. unfold weyl_counter. cbn [Nat.pow].
  rewrite !Nat.mul_1_r.
  assert (H1 : (k + 1) * d <= d * d) by (apply Nat.mul_le_mono_r; lia).
  assert (H2 : (l + 1) * (d * d) <= d * (d * d))
    by (apply Nat.mul_le_mono_r; lia).
  assert (H3 : (m + 1) * (d * (d * d)) <= d * (d * (d * d)))
    by (apply Nat.mul_le_mono_r; lia).
  lia.
Qed.

(** The loop, from counter [a] on: every cell whose turn has come holds the
    value of the right-hand side at its indices. *)
Lemma weyl_loop (d : nat) (R Ric g : NDimArray Expr) (rs : PyObj Expr)
  (F : nat -> nat -> nat -> nat -> Expr) :
  (forall i k l m, i < d -> k < d -> l < d -> m < d ->
     weyl_rhs d R Ric g rs i k l m = Ok (F i k l m)) ->
  forall (n a : nat) (C : List4),
    (0 < n -> 0 < d) ->
    regular4 d C ->
    (forall i k l m, i < d -> k < d -> l < d -> m < d ->
       weyl_counter d i k l m < a -> get4 C i k l m = Some (F i k l m)) ->
    exists C' : List4,
      for_range (seq a n) (weyl_body d R Ric g rs) C = Ok C' /\
      regular4 d C' /\
      (forall i k l m, i < d -> k < d -> l < d -> m < d ->
         weyl_counter d i k l m < a + n ->
         get4 C' i k l m = Some (F i k l m)).
Proof.
  intros Hrhs. induction n as [|n IH]; intros a C Hd HC Hinv.
  - exists C. simpl. split; [reflexivity|]. split; [exact HC|].
    intros i k l m Hi Hk Hl Hm Hlt. apply Hinv; try assumption. lia.
  - assert (Hd0 : 0 < d) by (apply Hd; lia).
    simpl. unfold weyl_body at 1.
    pose proof (weyl_indices_lt a Hd0) as Hbound.
    destruct (weyl_indices d a) as [[[i0 k0] l0] m0] eqn:Eidx.
    destruct Hbound as [Hi0 [Hk0 [Hl0 Hm0]]].
    rewrite (Hrhs i0 k0 l0 m0 Hi0 Hk0 Hl0 Hm0). simpl.
    destruct (setitem4_spec (F i0 k0 l0 m0) HC Hi0 Hk0 Hl0 Hm0)
      as [C1 [Hset [HC1 Hget]]].
    rewrite Hset. simpl.
    destruct (IH (S a) C1) as [C' [Hloop [HC' Hinv']]].
    + intros _. exact Hd0.
    + exact HC1.
    + intros i k l m Hi Hk Hl Hm Hlt. rewrite Hget.
      destruct ((i =? i0) && (k =? k0) && (l =? l0) && (m =? m0)) eqn:E.
      * apply andb_prop in E. destruct E as [E Em].
        apply andb_prop in E. destruct E as [E El].
        apply andb_prop in E. destruct E as [Ei Ek].
        apply Nat.eqb_eq in Ei, Ek, El, Em. subst. reflexivity.
      * apply Hinv; try assumption.
        assert (Hne : weyl_counter d i k l m <> a).
        { intros Heq.
          pose proof (weyl_indices_counter Hi Hk Hl Hm) as Hdec.
          rewrite Heq, Eidx in Hdec. injection Hdec as -> -> -> ->.
          rewrite !Nat.eqb_refl in E. discriminate E. }
        lia.
    + exists C'. split; [exact Hloop|]. split; [exact HC'|].
      intros i k l m Hi Hk Hl Hm Hlt. apply Hinv'; try assumption. lia.
Qed.

(** Reading square arrays *)

Lemma getitem_entry (a : NDimArray Expr) (idx : list nat) (p : nat) :
  flat_index (shape a) idx 0 = Some p -> p < length (entries a) ->
  getitem a idx = Ok (entry (of_int 0) a idx).
Proof.
  intros Hp Hlen. unfold getitem, entry. rewrite Hp.
  rewrite (nth_error_nth' _ (of_int 0) Hlen). reflexivity.
Qed.

Lemma flat_index_2 (n i k : nat) :
  i < n -> k < n -> flat_index [n; n] [i; k] 0 = Some (i * n + k).
Proof.
  intros Hi Hk. simpl. apply Nat.ltb_lt in Hi, Hk. rewrite Hi, Hk.
  reflexivity.
Qed.

Lemma flat_index_4 (n i k l m : nat) :
  i < n -> k < n -> l < n -> m < n ->
  flat_index [n; n; n; n] [i; k; l; m] 0
    = Some (((i * n + k) * n + l) * n + m).
Proof.
  intros Hi Hk Hl Hm. simpl. apply Nat.ltb_lt in Hi, Hk, Hl, Hm.
  rewrite Hi, Hk, Hl, Hm. reflexivity.
Qed.

Lemma flat_position_2 (n i k : nat) : i < n -> k < n -> i * n + k < n * n.
Proof.
  intros Hi Hk.
  assert (H1 : (i + 1) * n <= n * n) by (apply Nat.mul_le_mono_r; lia). lia.
Qed.

Lemma flat_position_4 (n i k l m : nat) :
  i < n -> k < n -> l < n -> m < n ->
  ((i * n + k) * n + l) * n + m < n * (n * (n * n)).
Proof.
  intros Hi Hk Hl Hm.
  pose proof (flat_position_2 Hi Hk) as H2.
  assert (H3 : (i * n + k + 1) * n <= n * n * n)
    by (apply Nat.mul_le_mono_r; lia).
  assert (H4 : ((i * n + k) * n + l + 1) * n <= n * n * n * n)
    by (apply Nat.mul_le_mono_r; lia).
  lia.
Qed.

Lemma getitem_square2 (n : nat) (a : NDimArray Expr) (i k : nat) :
  square 2 n a -> i < n -> k < n ->
  getitem a [i; k] = Ok (entry (of_int 0) a [i; k]).
Proof.
  intros [Hsh Hlen] Hi Hk. simpl in Hsh, Hlen.
  apply getitem_entry with (p := i * n + k).
  - rewrite Hsh. apply flat_index_2; assumption.
  - rewrite Hlen, Nat.mul_1_r. apply flat_position_2; assumption.
Qed.

Lemma getitem_square4 (n : nat) (a : NDimArray Expr) (i k l m : nat) :
  square 4 n a -> i < n -> k < n -> l < n -> m < n ->
  getitem a [i; k; l; m] = Ok (entry (of_int 0) a [i; k; l; m]).
Proof.
  intros [Hsh Hlen] Hi Hk Hl Hm. simpl in Hsh, Hlen.
  apply getitem_entry with (p := ((i * n + k) * n + l) * n + m).
  - rewrite Hsh. apply flat_index_4; assumption.
  - rewrite Hlen, Nat.mul_1_r. apply flat_position_4; assumption.
Qed.

(** The right-hand side of the assignment is the Weyl decomposition. *)
Lemma weyl_rhs_component (n : nat) (R Ric g : NDimArray Expr) (Rs : Expr)
  (i k l m : nat) :
  square 4 n R -> square 2 n Ric -> square 2 n g ->
  i < n -> k < n -> l < n -> m < n ->
  weyl_rhs n R Ric g (PyExpr Rs) i k l m
    = Ok (weyl_component n R Ric g Rs i k l m).
Proof.
  intros HR HRic Hg Hi Hk Hl Hm. unfold weyl_rhs.
  rewrite (getitem_square4 HR Hi Hk Hl Hm).
  rewrite !(getitem_square2 HRic) by assumption.
  rewrite !(getitem_square2 Hg) by assumption.
  reflexivity.
Qed.

(** [sympy.Array] of a regular nested list. *)
Lemma sympy_Array4_regular (d : nat) (C : List4) :
  regular4 d C ->
  exists A : NDimArray Expr,
    sympy_Array4 C = Ok A /\ shape A = [d; d; d; d] /\
    forall i k l m v, i < d -> k < d -> l < d -> m < d ->
      get4 C i k l m = Some v -> getitem A [i; k; l; m] = Ok v.
Proof.
  intros [Hlen HC].
  assert (H1 : Forall (regular1 d) C).
  { eapply Forall_impl; [|exact HC]. intros Ci [HCi _]. exact HCi. }
  assert (H2 : Forall (regular1 d) (concat C)).
  { apply Forall_concat. eapply Forall_impl; [|exact HC].
    intros Ci [_ HCi]. eapply Forall_impl; [|exact HCi].
    intros Cik [HCik _]. exact HCik. }
  assert (H3 : Forall (regular1 d) (concat (concat C))).
  { apply Forall_concat. apply Forall_concat.
    eapply Forall_impl; [|exact HC].
    intros Ci [_ HCi]. eapply Forall_impl; [|exact HCi].
    intros Cik [_ HCik]. exact HCik. }
  assert (L2 : length (concat C) = d * d)
    by (rewrite (length_concat_regular H1), Hlen; reflexivity).
  assert (L3 : length (concat (concat C)) = d * d * d)
    by (rewrite (length_concat_regular H2), L2; reflexivity).
  assert (D2 : length (hd [] C) = d)
    by (apply length_hd_regular; [lia | exact H1]).
  assert (D3 : length (hd [] (concat C)) = d)
    by (apply length_hd_regular; [nia | exact H2]).
  assert (D4 : length (hd [] (concat (concat C))) = d)
    by (apply length_hd_regular; [nia | exact H3]).
  eexists. split; [|split].
  - unfold sympy_Array4. rewrite D2, D3, D4.
    rewrite (uniform_regular H1), (uniform_regular H2), (uniform_regular H3).
    rewrite Hlen. reflexivity.
  - reflexivity.
  - intros i k l m v Hi Hk Hl Hm Hv.
    unfold getitem. cbn [shape entries].
    rewrite (flat_index_4 Hi Hk Hl Hm).
    rewrite (nth_error_concat _ H3 Hm).
    rewrite (nth_error_concat _ H2 Hl).
    rewrite (nth_error_concat _ H1 Hk).
    unfold get4 in Hv.
    destruct (nth_error C i) as [Ci|]; [|discriminate].
    destruct (nth_error Ci k) as [Cik|]; [|discriminate].
    destruct (nth_error Cik l) as [Cikl|]; [|discriminate].
    rewrite Hv. reflexivity.
Qed.

End WeylLoop.

(** C2.  For a metric of dimension above 3, let [g] be the covariant metric
    (the inverse of the metric when its configuration is "uu", the metric
    itself otherwise), [n] its dimension, [rcov] the Riemann tensor of the
    metric converted to "llll", [ric] the Ricci tensor and [rs] the Ricci
    scalar derived from the unconverted Riemann tensor.  When these
    collaborators deliver (arrays of side [n], a scalar expression, a list or
    tuple of symbols), [WeylTensor.from_metric] returns the tensor with
    configuration "llll", the input metric as parent, and as array the
    simplification of an n x n x n x n array whose component at every index
    quadruple (i, k, l, m) below [n] is the Weyl decomposition
    [weyl_component]. *)
Theorem WeylTensor_from_metric_formula `{CV : Curvature}
  (Hbase : Tensor_accepts_arrays)
  (metric g : Metric) (rm rcov : Riemann) (ric : RicciTensor)
  (rs : RicciScalar) (Rs : Expr) (nsyms : nat) :
  3 < metric_dims metric ->
  (if (metric_config metric =? "uu")%string then ext (metric_inv metric)
   else Ok metric) = Ok g ->
  RiemannCurvatureTensor_from_metric metric = Ok rm ->
  riemann_change_config rm "llll" None = Ok rcov ->
  RicciTensor_from_riemann rm None = Ok ric ->
  RicciScalar_from_riccitensor ric None = Ok rs ->
  scalar_expr rs = PyExpr Rs ->
  square 4 (metric_dims g) (riemann_tensor rcov) ->
  square 2 (metric_dims g) (tensor (ricci_base ric)) ->
  square 2 (metric_dims g) (metric_tensor g) ->
  seq_len (metric_syms metric) = Some nsyms ->
  exists A : NDimArray Expr,
    shape A = [metric_dims g; metric_dims g; metric_dims g; metric_dims g] /\
    (forall i k l m,
       i < metric_dims g -> k < metric_dims g ->
       l < metric_dims g -> m < metric_dims g ->
       getitem A [i; k; l; m]
         = Ok (weyl_component (metric_dims g) (riemann_tensor rcov)
                 (tensor (ricci_base ric)) (metric_tensor g) Rs i k l m)) /\
    WeylTensor_from_metric metric
      = Ok {| weyl_base := {| arr := simplify A; config := "llll" |};
              weyl_order := 4; weyl_parent_metric := Some metric;
              weyl_syms := metric_syms metric; weyl_dims := nsyms |}.
Proof.
  intros Hdims Hg Hrm Hrcov Hric Hrs HRs HR HRic Hgsq Hsyms.
  set (d := metric_dims g) in *.
  destruct (@weyl_loop _ d (riemann_tensor rcov) (tensor (ricci_base ric))
              (metric_tensor g) (PyExpr Rs)
              (weyl_component d (riemann_tensor rcov)
                 (tensor (ricci_base ric)) (metric_tensor g) Rs))
    with (n := d ^ 4) (a := 0) (C := zeros4 d) as [C [Hloop [HC Hcells]]].
  - intros i k l m Hi Hk Hl Hm. apply weyl_rhs_component; assumption.
  - destruct d; simpl; lia.
  - apply zeros4_regular.
  - intros i k l m _ _ _ _ Hlt. lia.
  - destruct (sympy_Array4_regular HC) as [A [HA [Hshape Hget]]].
    exists A. split; [exact Hshape|]. split.
    + intros i k l m Hi Hk Hl Hm. apply Hget; try assumption.
      apply Hcells; try assumption.
      simpl. apply weyl_counter_lt; assumption.
    + unfold WeylTensor_from_metric.
      apply Nat.ltb_lt in Hdims. rewrite Hdims.
      rewrite Hg. cbn [bind].
      rewrite (ext_Ok Hrm). cbn [bind].
      rewrite (ext_Ok Hrcov). cbn [bind].
      rewrite Hric. cbn [bind]. rewrite Hrs. cbn [bind].
      fold d. rewrite HRs, Hloop. cbn [bind]. rewrite HA. cbn [bind].
      apply WeylTensor_init_Ok;
        [apply Hbase; reflexivity | exact Hsyms | reflexivity].
Qed.

(** C2, run: Minkowski space; the collaborators deliver zero tensors and the
    result is the simplified 4 x 4 x 4 x 4 array. *)
Lemma WeylTensor_from_metric_formula_run :
  exists A : NDimArray Z,
    shape A = [4; 4; 4; 4] /\
    @getitem ZSympy A [1; 0; 1; 0] = Ok 0%Z /\
    @WeylTensor_from_metric ZSympy ZTensorLib ZCurvature minkowski
      = Ok (@mkWeylTensor ZSympy ZTensorLib (@mkTensor ZSympy A "llll") 4
              (Some minkowski) (PyTuple [1; 2; 3; 4]%Z) 4).
Proof.
  destruct (@WeylTensor_from_metric_formula ZSympy ZTensorLib ZCurvature
              ZTensorLib_accepts_arrays minkowski minkowski
              {| flat_config := "ulll"; flat_metric := minkowski |}
              {| flat_config := "llll"; flat_metric := minkowski |}
              (@mkRicciTensor ZSympy ZTensorLib
                 (@mkTensor ZSympy (@zeros ZSympy [4; 4]) "ll") 2
                 (Some minkowski) (PyTuple [1; 2; 3; 4]%Z) 4)
              (@mkRicciScalar ZSympy ZTensorLib 0 (Some minkowski)
                 (PyExpr 0%Z) (PyTuple [1; 2; 3; 4]%Z) 4)
              0%Z 4)
    as [A [Hshape [Hcomp Hweyl]]];
    try reflexivity.
  - simpl. lia.
  - split; reflexivity.
  - split; reflexivity.
  - split; reflexivity.
  - exists A. split; [exact Hshape|]. split; [|exact Hweyl].
    rewrite (Hcomp 1 0 1 0); [reflexivity | simpl; lia ..].
Defined.

(** ** Raising and lowering the indices of a Ricci tensor, in the model *)

Section RoundTrip.

Context `{SY : Sympy}.

(** Expressions are taken up to simplification: they form a commutative
    semiring under sympy's sum and product. *)
Hypothesis Expr_semiring :
  semi_ring_theory (of_int 0) (of_int 1) add mul eq.

Add Ring Expr_ring : Expr_semiring.

Local Notation "0" := (of_int 0%Z).
Local Notation "1" := (of_int 1%Z).
Local Notation "'sum'" := (sum_n (of_int 0%Z) add).
Local Notation "M @ idx" := (entry (of_int 0%Z) M idx) (at level 20).

Lemma sum_S (n : nat) (f : nat -> Expr) :
  sum (S n) f = add (sum n f) (f n).
Proof.
  unfold sum_n. rewrite seq_S, fold_left_app. reflexivity.
Qed.

Lemma sum_ext (n : nat) (f h : nat -> Expr) :
  (forall j, j < n -> f j = h j) -> sum n f = sum n h.
Proof.
  induction n as [|n IH]; intros Hfh; [reflexivity|].
  rewrite !sum_S, IH, Hfh by (intros; try apply Hfh; lia). reflexivity.
Qed.

Lemma sum_zero (n : nat) : sum n (fun _ => 0) = 0.
Proof.
  induction n as [|n IH]; [reflexivity|]. rewrite sum_S, IH. ring.
Qed.

Lemma sum_add (n : nat) (f h : nat -> Expr) :
  sum n (fun j => add (f j) (h j)) = add (sum n f) (sum n h).
Proof.
  induction n as [|n IH]; [cbn; ring|]. rewrite !sum_S, IH. ring.
Qed.

Lemma sum_mul_l (n : nat) (c : Expr) (f : nat -> Expr) :
  mul c (sum n f) = sum n (fun j => mul c (f j)).
Proof.
  induction n as [|n IH]; [cbn; ring|]. rewrite !sum_S, <- IH. ring.
Qed.

Lemma sum_mul_r (n : nat) (c : Expr) (f : nat -> Expr) :
  mul (sum n f) c = sum n (fun j => mul (f j) c).
Proof.
  induction n as [|n IH]; [cbn; ring|]. rewrite !sum_S, <- IH. ring.
Qed.

Lemma sum_swap (n m : nat) (f : nat -> nat -> Expr) :
  sum n (fun i => sum m (fun j => f i j))
    = sum m (fun j => sum n (fun i => f i j)).
Proof.
  induction n as [|n IH].
  - cbn. symmetry. apply sum_zero.
  - rewrite sum_S, IH, <- sum_add. apply sum_ext. intros j _.
    rewrite sum_S. reflexivity.
Qed.

Lemma sum_delta (n i : nat) (f : nat -> Expr) :
  i < n -> sum n (fun j => mul (delta i j) (f j)) = f i.
Proof.
  induction n as [|n IH]; intros Hi; [lia|]. rewrite sum_S.
  destruct (Nat.eq_dec i n) as [->|Hne].
  - rewrite sum_ext with (h := fun _ => 0).
    + rewrite sum_zero. unfold delta. rewrite Nat.eqb_refl. ring.
    + intros j Hj. unfold delta.
      destruct (n =? j) eqn:E; [apply Nat.eqb_eq in E; lia | ring].
  - rewrite IH by lia. unfold delta.
    destruct (i =? n) eqn:E; [apply Nat.eqb_eq in E; lia | ring].
Qed.

(** A matrix times its inverse times a vector. *)
Lemma sum_cancel (n : nat) (M' M : NDimArray Expr) (u : nat -> Expr) (i : nat) :
  (forall a b, a < n -> b < n -> matrix_product n M' M a b = delta a b) ->
  i < n ->
  sum n (fun j => mul (M' @ [i; j]) (sum n (fun j' => mul (M @ [j; j']) (u j'))))
    = u i.
Proof.
  intros Hinv Hi.
  rewrite sum_ext with
    (h := fun j =>
            sum n (fun j' => mul (mul (M' @ [i; j]) (M @ [j; j'])) (u j'))).
  - rewrite sum_swap.
    rewrite sum_ext with (h := fun j' => mul (delta i j') (u j')).
    + apply sum_delta. exact Hi.
    + intros j' Hj'. rewrite <- sum_mul_r.
      fold (matrix_product n M' M i j'). rewrite Hinv by assumption.
      reflexivity.
  - intros j _. rewrite sum_mul_l. apply sum_ext. intros j' _. ring.
Qed.

(** Arrays built entry by entry *)

Lemma length_indices (sh : list nat) : length (indices sh) = size sh.
Proof.
  induction sh as [|d sh IH]; [reflexivity|]. simpl.
  rewrite flat_map_concat_map.
  rewrite length_concat_regular with (d := size sh).
  - rewrite length_map, length_seq. reflexivity.
  - apply Forall_forall. intros l Hl. apply in_map_iff in Hl.
    destruct Hl as [i [<- _]]. unfold regular1.
    rewrite length_map. exact IH.
Qed.

(** The multi-index at a row-major position. *)
Lemma flat_index_indices (sh idx : list nat) (acc p : nat) :
  flat_index sh idx acc = Some p ->
  exists q, p = acc * size sh + q /\ q < size sh /\
            nth_error (indices sh) q = Some idx.
Proof.
  revert idx acc p. induction sh as [|d sh IH]; intros idx acc p Hp.
  - destruct idx; simpl in Hp; [|discriminate]. injection Hp as <-.
    exists 0%nat. simpl. split; [lia|]. split; [lia | reflexivity].
  - destruct idx as [|i idx]; simpl in Hp; [discriminate|].
    destruct (i <? d) eqn:Hi; [|discriminate]. apply Nat.ltb_lt in Hi.
    destruct (IH _ _ _ Hp) as [q [Hq [Hlt Hnth]]].
    exists (i * size sh + q)%nat. simpl. split; [|split].
    + rewrite Hq. ring.
    + assert (H1 : (i + 1) * size sh <= d * size sh)
        by (apply Nat.mul_le_mono_r; lia).
      lia.
    + rewrite flat_map_concat_map.
      rewrite nth_error_concat with (d := size sh); [|  | exact Hlt].
      * rewrite nth_error_map, nth_error_seq.
        apply Nat.ltb_lt in Hi. rewrite Hi. simpl.
        rewrite nth_error_map, Hnth. reflexivity.
      * apply Forall_forall. intros l Hl. apply in_map_iff in Hl.
        destruct Hl as [i' [<- _]]. unfold regular1.
        rewrite length_map. apply length_indices.
Qed.

Lemma entry_tabulate (sh idx : list nat) (f : list nat -> Expr) (p : nat) :
  flat_index sh idx 0 = Some p -> tabulate sh f @ idx = f idx.
Proof.
  intros Hp. unfold entry. cbn [shape entries tabulate]. rewrite Hp.
  destruct (flat_index_indices _ _ _ Hp) as [q [Hq [_ Hnth]]].
  simpl in Hq. subst p. apply nth_error_nth.
  rewrite nth_error_map, Hnth. reflexivity.
Qed.

Lemma square_tabulate (r n : nat) (f : list nat -> Expr) :
  square r n (tabulate (repeat n r) f).
Proof.
  split; [reflexivity|]. cbn [entries tabulate].
  rewrite length_map. apply length_indices.
Qed.

(** Two n x n arrays with the same entries are the same array. *)
Lemma square2_ext (n : nat) (a b : NDimArray Expr) :
  square 2 n a -> square 2 n b ->
  (forall i k, i < n -> k < n -> a @ [i; k] = b @ [i; k]) -> a = b.
Proof.
  intros [Hsa Hla] [Hsb Hlb] Hab.
  destruct a as [sa ea], b as [sb eb]. simpl in *. subst sa sb.
  f_equal. apply nth_ext with (d := 0) (d' := 0); [lia|].
  intros p Hp. rewrite Hla, Nat.mul_1_r in Hp.
  assert (Hn : n <> 0%nat) by (intros ->; simpl in Hp; lia).
  assert (Hq : (p / n < n)%nat) by (apply Nat.Div0.div_lt_upper_bound; lia).
  assert (Hr : (p mod n < n)%nat) by (apply Nat.mod_upper_bound; exact Hn).
  specialize (Hab (p / n) (p mod n) Hq Hr)%nat.
  unfold entry in Hab. cbn [shape entries] in Hab.
  rewrite (flat_index_2 Hq Hr) in Hab.
  replace (p / n * n + p mod n)%nat with p in Hab; [exact Hab|].
  rewrite (Nat.div_mod_eq p n) at 1. lia.
Qed.

(** The components of a contracted array *)

Lemma contract_axis_0 (n : nat) (M t : NDimArray Expr) (i k : nat) :
  square 2 n t -> i < n -> k < n ->
  contract_axis 0 add mul M 0 t @ [i; k]
    = sum n (fun j => mul (M @ [i; j]) (t @ [j; k])).
Proof.
  intros [Hsh _] Hi Hk. unfold contract_axis. simpl in Hsh. rewrite Hsh.
  rewrite entry_tabulate with (p := (i * n + k)%nat)
    by (apply flat_index_2; assumption).
  reflexivity.
Qed.

Lemma contract_axis_1 (n : nat) (M t : NDimArray Expr) (i k : nat) :
  square 2 n t -> i < n -> k < n ->
  contract_axis 0 add mul M 1 t @ [i; k]
    = sum n (fun j => mul (M @ [k; j]) (t @ [i; j])).
Proof.
  intros [Hsh _] Hi Hk. unfold contract_axis. simpl in Hsh. rewrite Hsh.
  rewrite entry_tabulate with (p := (i * n + k)%nat)
    by (apply flat_index_2; assumption).
  reflexivity.
Qed.

Lemma square_contract_axis (n : nat) (M t : NDimArray Expr) (p : nat) :
  square 2 n t -> square 2 n (contract_axis 0 add mul M p t).
Proof.
  intros [Hsh _]. unfold contract_axis. rewrite Hsh.
  apply square_tabulate.
Qed.

(** One axis, there and back *)

Lemma square_change_axis (n : nat) (g : ModelMetric) (p : nat) (o o' : ascii)
  (t : NDimArray Expr) :
  square 2 n t -> square 2 n (change_axis g p o o' t).
Proof.
  intros Ht. unfold change_axis.
  destruct (Ascii.eqb o o'); [exact Ht | apply square_contract_axis; exact Ht].
Qed.

(** The metric that undoes a change from label [o] to label [o']. *)
Lemma label_inverse (n : nat) (g : ModelMetric) (o o' : ascii) :
  metric_inverse n g ->
  (o = "u" \/ o = "l")%char -> (o' = "u" \/ o' = "l")%char -> o <> o' ->
  forall a b, a < n -> b < n ->
    matrix_product n
      (if Ascii.eqb o "u" then model_contra g else model_cov g)
      (if Ascii.eqb o' "u" then model_contra g else model_cov g) a b
    = delta a b.
Proof.
  intros [_ [_ [Hcc Hcc']]] Ho Ho' Hne.
  destruct Ho as [-> | ->], Ho' as [-> | ->]; try congruence; simpl; assumption.
Qed.

Lemma change_axis_0_cancel (n : nat) (g : ModelMetric) (o o' : ascii)
  (t : NDimArray Expr) :
  metric_inverse n g -> square 2 n t ->
  (o = "u" \/ o = "l")%char -> (o' = "u" \/ o' = "l")%char ->
  change_axis g 0 o' o (change_axis g 0 o o' t) = t.
Proof.
  intros Hg Ht Ho Ho'. unfold change_axis.
  destruct (Ascii.eqb_spec o o') as [->|Hne].
  - rewrite Ascii.eqb_refl. reflexivity.
  - assert (Hne' : o' <> o) by congruence.
    apply Ascii.eqb_neq in Hne'. rewrite Hne'.
    apply square2_ext with (n := n);
      [do 2 apply square_contract_axis; exact Ht | exact Ht |].
    intros i k Hi Hk.
    rewrite contract_axis_0 with (n := n)
      by (try apply square_contract_axis; assumption).
    rewrite sum_ext with
      (h := fun j =>
              mul ((if Ascii.eqb o "u" then model_contra g else model_cov g)
                     @ [i; j])
                  (sum n (fun j' =>
                     mul ((if Ascii.eqb o' "u" then model_contra g
                           else model_cov g) @ [j; j'])
                         (t @ [j'; k])))).
    + apply sum_cancel with (u := fun j' => t @ [j'; k]); [|exact Hi].
      apply label_inverse; assumption.
    + intros j Hj. rewrite contract_axis_0 with (n := n) by assumption.
      reflexivity.
Qed.

Lemma change_axis_1_cancel (n : nat) (g : ModelMetric) (o o' : ascii)
  (t : NDimArray Expr) :
  metric_inverse n g -> square 2 n t ->
  (o = "u" \/ o = "l")%char -> (o' = "u" \/ o' = "l")%char ->
  change_axis g 1 o' o (change_axis g 1 o o' t) = t.
Proof.
  intros Hg Ht Ho Ho'. unfold change_axis.
  destruct (Ascii.eqb_spec o o') as [->|Hne].
  - rewrite Ascii.eqb_refl. reflexivity.
  - assert (Hne' : o' <> o) by congruence.
    apply Ascii.eqb_neq in Hne'. rewrite Hne'.
    apply square2_ext with (n := n);
      [do 2 apply square_contract_axis; exact Ht | exact Ht |].
    intros i k Hi Hk.
    rewrite contract_axis_1 with (n := n)
      by (try apply square_contract_axis; assumption).
    rewrite sum_ext with
      (h := fun j =>
              mul ((if Ascii.eqb o "u" then model_contra g else model_cov g)
                     @ [k; j])
                  (sum n (fun j' =>
                     mul ((if Ascii.eqb o' "u" then model_contra g
                           else model_cov g) @ [j; j'])
                         (t @ [i; j'])))).
    + apply sum_cancel with (u := fun j' => t @ [i; j']); [|exact Hk].
      apply label_inverse; assumption.
    + intros j Hj. rewrite contract_axis_1 with (n := n) by assumption.
      reflexivity.
Qed.

(** Changes of the two axes commute. *)
Lemma change_axis_commute (n : nat) (g : ModelMetric) (a b c d : ascii)
  (t : NDimArray Expr) :
  square 2 n t ->
  change_axis g 0 a b (change_axis g 1 c d t)
    = change_axis g 1 c d (change_axis g 0 a b t).
Proof.
  intros Ht. unfold change_axis.
  destruct (Ascii.eqb a b); [reflexivity|].
  destruct (Ascii.eqb c d); [reflexivity|].
  set (M := if Ascii.eqb b "u" then model_contra g else model_cov g).
  set (N := if Ascii.eqb d "u" then model_contra g else model_cov g).
  apply square2_ext with (n := n);
    [do 2 apply square_contract_axis; exact Ht
    | do 2 apply square_contract_axis; exact Ht |].
  intros i k Hi Hk.
  rewrite contract_axis_0 with (n := n)
    by (try apply square_contract_axis; assumption).
  rewrite contract_axis_1 with (n := n)
    by (try apply square_contract_axis; assumption).
  rewrite sum_ext with
    (h := fun j => sum n (fun j' =>
            mul (mul (M @ [i; j]) (N @ [k; j'])) (t @ [j; j']))).
  - rewrite sum_swap. apply sum_ext. intros j' Hj'.
    rewrite contract_axis_0 with (n := n) by assumption.
    rewrite sum_mul_l. apply sum_ext. intros j _. ring.
  - intros j Hj. rewrite contract_axis_1 with (n := n) by assumption.
    rewrite sum_mul_l. apply sum_ext. intros j' _. ring.
Qed.

(** A configuration of length 2 is two labels. *)
Lemma config2_inv (c : string) :
  is_config c = true -> String.length c = 2 ->
  exists o0 o1 : ascii,
    c = String o0 (String o1 EmptyString) /\
    (o0 = "u" \/ o0 = "l")%char /\ (o1 = "u" \/ o1 = "l")%char.
Proof.
  intros Hc Hlen.
  destruct c as [|o0 [|o1 [|o2 c]]]; simpl in Hlen; try discriminate.
  exists o0, o1. split; [reflexivity|]. simpl in Hc.
  apply andb_prop in Hc. destruct Hc as [H0 Hc].
  apply andb_prop in Hc. destruct Hc as [H1 _].
  apply orb_prop in H0. apply orb_prop in H1.
  split.
  - destruct H0 as [H0|H0]; apply Ascii.eqb_eq in H0; auto.
  - destruct H1 as [H1|H1]; apply Ascii.eqb_eq in H1; auto.
Qed.

(** Raising and lowering the indices of an n x n array to a new
    configuration and back gives the array back. *)
Lemma change_axes_round_trip (n : nat) (g : ModelMetric) (c c' : string)
  (t : NDimArray Expr) :
  metric_inverse n g -> square 2 n t ->
  is_config c = true -> String.length c = 2 ->
  is_config c' = true -> String.length c' = 2 ->
  change_axes g 0 c' c (change_axes g 0 c c' t) = t /\
  square 2 n (change_axes g 0 c c' t).
Proof.
  intros Hg Ht Hc Hlen Hc' Hlen'.
  destruct (config2_inv _ Hc Hlen) as [o0 [o1 [-> [Ho0 Ho1]]]].
  destruct (config2_inv _ Hc' Hlen') as [n0 [n1 [-> [Hn0 Hn1]]]].
  cbn [change_axes]. split.
  - rewrite change_axis_commute with (n := n)
      by (apply square_change_axis; exact Ht).
    rewrite change_axis_1_cancel with (n := n);
      try assumption; [|do 2 apply square_change_axis; exact Ht].
    apply change_axis_0_cancel with (n := n); assumption.
  - do 2 apply square_change_axis. exact Ht.
Qed.

End RoundTrip.

(** C9, in the model of [_change_config].  Let a Ricci tensor have an n x n
    array, a configuration over u and l, a list or tuple of symbols and a
    parent metric whose covariant and contravariant components are inverse
    n x n matrices, and let expressions be taken up to simplification (a
    commutative semiring).  For every configuration of two labels,
    [change_config] to it succeeds, [change_config] of the result back to
    the original configuration with the same metric succeeds, and the tensor
    it returns has the original configuration and the original array. *)
Theorem RicciTensor_change_config_round_trip `{SY : Sympy}
  (refused : EngineExc)
  (Hring : semi_ring_theory (of_int 0) (of_int 1) add mul eq)
  (t : @RicciTensor SY (ModelTensorLib refused)) (g : ModelMetric)
  (newconfig : string) (n nsyms : nat) :
  @ricci_parent_metric SY (ModelTensorLib refused) t = Some g ->
  metric_inverse n g ->
  square 2 n (tensor (ricci_base t)) ->
  is_config (ricci_config t) = true -> String.length (ricci_config t) = 2 ->
  is_config newconfig = true -> String.length newconfig = 2 ->
  seq_len (ricci_syms t) = Some nsyms ->
  exists t' t'' : @RicciTensor SY (ModelTensorLib refused),
    @RicciTensor_change_config SY (ModelTensorLib refused) t newconfig None
      = Ok t' /\
    ricci_config t' = newconfig /\
    @RicciTensor_change_config SY (ModelTensorLib refused) t'
       (ricci_config t) (Some g) = Ok t'' /\
    ricci_config t'' = ricci_config t /\
    tensor (ricci_base t'') = tensor (ricci_base t).
Proof.
  intros Hpm Hg Ht Hc Hlen Hc' Hlen' Hsyms.
  destruct (@change_axes_round_trip SY Hring n g (ricci_config t) newconfig
              (tensor (ricci_base t)) Hg Ht Hc Hlen Hc' Hlen')
    as [Hback Hsq].
  unfold ricci_config, tensor in *.
  assert (Hrank : rank (arr (ricci_base t)) = 2).
  { destruct Ht as [Hsh _]. unfold rank. rewrite Hsh. reflexivity. }
  assert (Hrank' :
            rank (change_axes g 0 (config (ricci_base t)) newconfig
                    (arr (ricci_base t))) = 2).
  { destruct Hsq as [Hsh _]. unfold rank. rewrite Hsh. reflexivity. }
  eexists. eexists. split; [|split; [|split; [|split]]].
  - eapply RicciTensor_change_config_Ok with (g := g) (n := nsyms);
      [rewrite Hpm; reflexivity | | | exact Hsyms | exact Hlen'].
    + cbn [_change_config ModelTensorLib]. unfold model_change_config.
      rewrite Hc', Hlen', Hlen, Hrank. reflexivity.
    + cbn [Tensor_array ModelTensorLib model_Tensor_array].
      rewrite Hc'. reflexivity.
  - reflexivity.
  - eapply RicciTensor_change_config_Ok with (g := g) (n := nsyms);
      [reflexivity | | | exact Hsyms | exact Hlen].
    + cbn [_change_config ModelTensorLib ricci_base arr config].
      unfold model_change_config. cbn [arr config].
      rewrite Hc, Hlen, Hlen', Hrank'. reflexivity.
    + cbn [Tensor_array ModelTensorLib model_Tensor_array].
      rewrite Hc. reflexivity.
  - reflexivity.
  - cbn [ricci_base arr]. exact Hback.
Qed.

Lemma Z_semiring : semi_ring_theory 0%Z 1%Z Z.add Z.mul eq.
Proof. constructor; intros; lia. Qed.

Lemma minkowski_inverse : @metric_inverse ZSympy 4 minkowski.
Proof.
  split; [split; reflexivity|]. split; [split; reflexivity|].
  split; intros i k Hi Hk;
    do 4 (destruct i as [|i];
          [do 4 (destruct k as [|k]; [reflexivity|]); lia|]);
    lia.
Qed.

(** C9, run: over Minkowski space, the tensor with covariant components
    diag(1, 1, 1, 1) is taken to configuration "ul" and back. *)
Lemma RicciTensor_change_config_round_trip_run :
  exists t' t'' : @RicciTensor ZSympy ZTensorLib,
    @RicciTensor_change_config ZSympy ZTensorLib
       (@mkRicciTensor ZSympy ZTensorLib
          (@mkTensor ZSympy (diag [1; 1; 1; 1]%Z) "ll") 2 (Some minkowski)
          (PyTuple [1; 2; 3; 4]%Z) 4)
       "ul" None = Ok t' /\
    tensor (ricci_base t') = diag [-1; 1; 1; 1]%Z /\
    @RicciTensor_change_config ZSympy ZTensorLib t' "ll" (Some minkowski)
      = Ok t'' /\
    tensor (ricci_base t'') = diag [1; 1; 1; 1]%Z.
Proof.
  destruct (@RicciTensor_change_config_round_trip ZSympy "refused" Z_semiring
              (@mkRicciTensor ZSympy ZTensorLib
                 (@mkTensor ZSympy (diag [1; 1; 1; 1]%Z) "ll") 2
                 (Some minkowski) (PyTuple [1; 2; 3; 4]%Z) 4)
              minkowski "ul" 4 4 eq_refl minkowski_inverse
              (conj eq_refl eq_refl) eq_refl eq_refl eq_refl eq_refl eq_refl)
    as [t' [t'' [H1 [_ [H2 [_ H3]]]]]].
  exists t', t''. split; [exact H1|]. split; [|split; [exact H2 | exact H3]].
  vm_compute in H1. injection H1 as <-. reflexivity.
Defined.

(** * Further properties of the code *)

(** ** The index decoding of the loop *)

Lemma weyl_counter_indices (d t : nat) :
  0 < d -> t < d ^ 4 ->
  let '(i, k, l, m) := weyl_indices d t in weyl_counter d i k l m = t.
Proof.
  intros Hd Ht. unfold weyl_indices, weyl_counter.
  cbn [Nat.pow] in *. rewrite !Nat.mul_1_r in *.
  assert (Hd' : d <> 0) by lia.
  rewrite <- !Nat.Div0.div_div.
  set (q1 := t / d). set (q2 := q1 / d). set (q3 := q2 / d).
  pose proof (Nat.div_mod_eq t d) as E1. fold q1 in E1.
  pose proof (Nat.div_mod_eq q1 d) as E2. fold q2 in E2.
  pose proof (Nat.div_mod_eq q2 d) as E3. fold q3 in E3.
  assert (H1 : q1 < d * (d * d)).
  { apply Nat.Div0.div_lt_upper_bound. lia. }
  assert (H2 : q2 < d * d).
  { apply Nat.Div0.div_lt_upper_bound. lia. }
  assert (H3 : q3 < d).
  { apply Nat.Div0.div_lt_upper_bound. lia. }
  rewrite (Nat.mod_small q3 d H3).
  set (r0 := t mod d) in *. set (r1 := q1 mod d) in *.
  set (r2 := q2 mod d) in *.
  nia.
Qed.

(** The loop counter and the index quadruple determine each other: a counter
    below [dims ** 4] is decoded into four indices below [dims] that encode
    it, and every quadruple below [dims] is the decoding of its counter
    [i + k dims + l dims^2 + m dims^3], which is below [dims ** 4].  So the
    loop visits every cell of [C] exactly once. *)
Theorem weyl_indices_bijection (d : nat) :
  0 < d ->
  (forall t, t < d ^ 4 ->
     exists i k l m,
       weyl_indices d t = (i, k, l, m) /\
       i < d /\ k < d /\ l < d /\ m < d /\ weyl_counter d i k l m = t) /\
  (forall i k l m, i < d -> k < d -> l < d -> m < d ->
     weyl_counter d i k l m < d ^ 4 /\
     weyl_indices d (weyl_counter d i k l m) = (i, k, l, m)).
Proof.
  intros Hd. split.
  - intros t Ht.
    pose proof (weyl_indices_lt t Hd) as Hlt.
    pose proof (weyl_counter_indices Hd Ht) as Hc.
    destruct (weyl_indices d t) as [[[i k] l] m].
    exists i, k, l, m. split; [reflexivity|].
    destruct Hlt as [Hi [Hk [Hl Hm]]]. repeat split; assumption.
  - intros i k l m Hi Hk Hl Hm. split.
    + apply weyl_counter_lt; assumption.
    + apply weyl_indices_counter; assumption.
Qed.

(** Run: in dimension 4, counter 27 is the cell (3, 2, 1, 0). *)
Lemma weyl_indices_bijection_run :
  weyl_indices 4 27 = (3, 2, 1, 0) /\ weyl_counter 4 3 2 1 0 = 27.
Proof.
  destruct (@weyl_indices_bijection 4) as [Hdec Henc]; [lia|].
  destruct (Henc 3 2 1 0) as [_ Hidx]; try lia.
  split; [|reflexivity].
  change (weyl_counter 4 3 2 1 0) with 27 in Hidx. exact Hidx.
Defined.

(** ** Which exceptions come out *)

Section Outcomes.

Context `{CV : Curvature}.

Lemma among_Ok {A : Type} (es : list Exc) (a : A) : outcome_among es (Ok a).
Proof. left. exists a. reflexivity. Qed.

Lemma among_ext {A : Type} (es : list Exc) (r : result EngineExc A) :
  outcome_among es (ext r).
Proof.
  destruct r as [a|x]; [apply among_Ok|].
  right. left. exists x. reflexivity.
Qed.

Lemma among_Raise {A : Type} (es : list Exc) (e : Exc) :
  In e es -> outcome_among es (@Raise Exc A e).
Proof. intros He. right. right. exists e. split; [exact He | reflexivity]. Qed.

Lemma among_incl {A : Type} (es es' : list Exc) (r : Res A) :
  incl es es' -> outcome_among es r -> outcome_among es' r.
Proof.
  intros Hincl [Hok | [Heng | [e [He Hr]]]].
  - left. exact Hok.
  - right. left. exact Heng.
  - right. right. exists e. split; [apply Hincl; exact He | exact Hr].
Qed.

Lemma among_bind {A B : Type} (es : list Exc) (r : Res A) (k : A -> Res B) :
  outcome_among es r ->
  (forall a, r = Ok a -> outcome_among es (k a)) ->
  outcome_among es (bind r k).
Proof.
  intros [[a ->] | [[x ->] | [e [He ->]]]] Hk; simpl.
  - apply Hk. reflexivity.
  - right. left. exists x. reflexivity.
  - right. right. exists e. split; [exact He | reflexivity].
Qed.

Lemma getitem_among (a : NDimArray Expr) (idx : list nat) :
  outcome_among [] (getitem a idx).
Proof.
  unfold getitem. destruct (flat_index (shape a) idx 0) as [p|].
  - destruct (nth_error (entries a) p) as [e|]; [apply among_Ok|].
    right. left. exists bad_index. reflexivity.
  - right. left. exists bad_index. reflexivity.
Qed.

Lemma operand_among (o : PyObj Expr) : outcome_among [] (operand o).
Proof. destruct o; simpl; try apply among_ext. apply among_Ok. Qed.

Lemma weyl_rhs_among (dims : nat) (R Ric g : NDimArray Expr)
  (rs : PyObj Expr) (i k l m : nat) :
  outcome_among [] (weyl_rhs dims R Ric g rs i k l m).
Proof.
  unfold weyl_rhs.
  repeat (apply among_bind;
          [first [apply getitem_among | apply operand_among] | intros ? _]).
  apply among_Ok.
Qed.

(** The loop on a regular nested list: every assignment is in range, so the
    loop ends with a regular list or with a failure of an operand read. *)
Lemma weyl_loop_outcome (d : nat) (R Ric g : NDimArray Expr)
  (rs : PyObj Expr) (n a : nat) (C : List4) :
  (0 < n -> 0 < d) -> regular4 d C ->
  (exists C' : List4,
     for_range (seq a n) (weyl_body d R Ric g rs) C = Ok C' /\
     regular4 d C') \/
  (exists x : EngineExc,
     for_range (seq a n) (weyl_body d R Ric g rs) C = Raise (Engine x)).
Proof.
  revert a C. induction n as [|n IH]; intros a C Hd HC.
  - left. exists C. split; [reflexivity | exact HC].
  - assert (Hd0 : 0 < d) by (apply Hd; lia).
    simpl. unfold weyl_body at 1. unfold weyl_body at 2.
    pose proof (weyl_indices_lt a Hd0) as Hbound.
    destruct (weyl_indices d a) as [[[i0 k0] l0] m0].
    destruct Hbound as [Hi0 [Hk0 [Hl0 Hm0]]].
    destruct (weyl_rhs_among d R Ric g rs i0 k0 l0 m0)
      as [[v Hv] | [[x Hx] | [e [[] _]]]].
    + rewrite Hv. simpl.
      destruct (setitem4_spec v HC Hi0 Hk0 Hl0 Hm0) as [C1 [Hset [HC1 _]]].
      rewrite Hset. simpl. apply IH; [intros _; exact Hd0 | exact HC1].
    + rewrite Hx. simpl. right. exists x. split; reflexivity.
Qed.

Lemma sympy_Array4_square (d : nat) (C : List4) :
  regular4 d C ->
  exists A : NDimArray Expr, sympy_Array4 C = Ok A /\ square 4 d A.
Proof.
  intros HC. destruct (sympy_Array4_regular HC) as [A [HA [Hshape _]]].
  exists A. split; [exact HA|]. split; [exact Hshape|].
  destruct HC as [Hlen HC].
  assert (H1 : Forall (regular1 d) C).
  { eapply Forall_impl; [|exact HC]. intros Ci [HCi _]. exact HCi. }
  assert (H2 : Forall (regular1 d) (concat C)).
  { apply Forall_concat. eapply Forall_impl; [|exact HC].
    intros Ci [_ HCi]. eapply Forall_impl; [|exact HCi].
    intros Cik [HCik _]. exact HCik. }
  assert (H3 : Forall (regular1 d) (concat (concat C))).
  { apply Forall_concat. apply Forall_concat.
    eapply Forall_impl; [|exact HC].
    intros Ci [_ HCi]. eapply Forall_impl; [|exact HCi].
    intros Cik [_ HCik]. exact HCik. }
  unfold sympy_Array4 in HA.
  match type of HA with
  | (if ?b then _ else _) = _ => destruct b; [|discriminate HA]
  end.
  injection HA as <-. cbn [entries].
  rewrite (length_concat_regular H3), (length_concat_regular H2),
    (length_concat_regular H1), Hlen.
  simpl. lia.
Qed.

Lemma RicciTensor_init_among (a syms : PyObj Expr) (c : string)
  (pm : option Metric) :
  String.length c = 2 ->
  outcome_among [TypeError syms_not_sequence] (RicciTensor_init a syms c pm).
Proof.
  intros Hc. unfold RicciTensor_init, Tensor_init.
  apply among_bind.
  { apply among_bind; [apply among_ext | intros x _; apply among_Ok]. }
  intros base _. simpl. rewrite Hc. simpl.
  destruct (seq_len syms); [apply among_Ok | apply among_Raise; left; reflexivity].
Qed.

Lemma WeylTensor_init_among (a syms : PyObj Expr) (c : string)
  (pm : option Metric) :
  String.length c = 4 ->
  outcome_among [TypeError syms_not_sequence] (WeylTensor_init a syms c pm).
Proof.
  intros Hc. unfold WeylTensor_init, Tensor_init.
  apply among_bind.
  { apply among_bind; [apply among_ext | intros x _; apply among_Ok]. }
  intros base _. simpl. rewrite Hc. simpl.
  destruct (seq_len syms); [apply among_Ok | apply among_Raise; left; reflexivity].
Qed.

Lemma RicciTensor_from_riemann_among (riemann : Riemann) (pm : option Metric) :
  outcome_among [TypeError syms_not_sequence]
    (RicciTensor_from_riemann riemann pm).
Proof.
  unfold RicciTensor_from_riemann. apply among_bind.
  - destruct (negb (riemann_config riemann =? "ulll")%string);
      [apply among_ext | apply among_Ok].
  - intros r _. apply among_bind; [apply among_ext|].
    intros c _. apply RicciTensor_init_among. reflexivity.
Qed.

Lemma RicciTensor_change_config_ul_among (t : RicciTensor)
  (metric : option Metric) :
  outcome_among [TypeError syms_not_sequence; Exception no_parent_metric]
    (RicciTensor_change_config t "ul" metric).
Proof.
  unfold RicciTensor_change_config.
  destruct (match metric with None => ricci_parent_metric t | Some m => Some m end)
    as [g|].
  - apply among_bind; [apply among_ext|]. intros nt _.
    apply among_incl with (es := [TypeError syms_not_sequence]).
    + intros e [<-|[]]. left. reflexivity.
    + apply RicciTensor_init_among. reflexivity.
  - apply among_Raise. right. left. reflexivity.
Qed.

Lemma RicciScalar_from_riccitensor_among (t : RicciTensor)
  (pm : option Metric) :
  outcome_among [TypeError syms_not_sequence; Exception no_parent_metric]
    (RicciScalar_from_riccitensor t pm).
Proof.
  unfold RicciScalar_from_riccitensor. apply among_bind.
  - destruct (negb (ricci_config t =? "ul")%string);
      [apply RicciTensor_change_config_ul_among | apply among_Ok].
  - intros t' _. apply among_bind; [apply among_ext|]. intros s _.
    unfold RicciScalar_init.
    destruct (seq_len (ricci_syms t'));
      [apply among_Ok | apply among_Raise; left; reflexivity].
Qed.

End Outcomes.

(** [WeylTensor.from_metric] returns, or fails inside a collaborator, or
    raises one of three exceptions of the two modules: the ValueError of the
    dimension check, the TypeError of the syms check, or the Exception of a
    missing parent metric (from the conversion of the Ricci tensor to "ul").
    In particular no list access of the loop is ever out of range
    (no IndexError), and no configuration-length ValueError is raised. *)
Theorem WeylTensor_from_metric_outcome `{CV : Curvature} (metric : Metric) :
  outcome_among
    [ValueError dimension_too_small; TypeError syms_not_sequence;
     Exception no_parent_metric]
    (WeylTensor_from_metric metric).
Proof.
  unfold WeylTensor_from_metric.
  destruct (3 <? metric_dims metric).
  - apply among_bind.
    { destruct (metric_config metric =? "uu")%string;
        [apply among_ext | apply among_Ok]. }
    intros g _.
    apply among_bind; [apply among_ext|]. intros rm _.
    apply among_bind; [apply among_ext|]. intros rcov _.
    apply among_bind.
    { apply among_incl with (es := [TypeError syms_not_sequence]).
      - intros e [<-|[]]. right. left. reflexivity.
      - apply RicciTensor_from_riemann_among. }
    intros ric _.
    apply among_bind.
    { apply among_incl
        with (es := [TypeError syms_not_sequence; Exception no_parent_metric]).
      - intros e [<-|[<-|[]]]; [right; left | right; right; left]; reflexivity.
      - apply RicciScalar_from_riccitensor_among. }
    intros rs _.
    apply among_bind.
    { destruct (@weyl_loop_outcome _ (metric_dims g)
                  (riemann_tensor rcov) (tensor (ricci_base ric))
                  (metric_tensor g) (scalar_expr rs)
                  (metric_dims g ^ 4) 0 (zeros4 (metric_dims g)))
        as [[C [HC _]] | [x Hx]].
      - destruct (metric_dims g); simpl; lia.
      - apply zeros4_regular.
      - rewrite HC. apply among_Ok.
      - rewrite Hx. right. left. exists x. reflexivity. }
    intros C _.
    apply among_bind.
    { unfold sympy_Array4.
      match goal with |- context [if ?b then _ else _] => destruct b end;
        [apply among_Ok | right; left; exists ragged; reflexivity]. }
    intros A _.
    apply among_incl with (es := [TypeError syms_not_sequence]).
    + intros e [<-|[]]. right. left. reflexivity.
    + apply WeylTensor_init_among. reflexivity.
  - destruct (metric_dims metric =? 3).
    + apply among_incl with (es := [TypeError syms_not_sequence]).
      * intros e [<-|[]]. right. left. reflexivity.
      * apply WeylTensor_init_among. reflexivity.
    + apply among_Raise. left. reflexivity.
Qed.

(** The derivations of ricci.py return, or fail inside a collaborator, or
    raise the TypeError of the syms check; those of [RicciScalar] may also
    raise the Exception of a missing parent metric.  None raises a
    ValueError: the configurations they pass, "ll" and "ul", have the
    length of the order. *)
Theorem ricci_derivations_outcome `{CV : Curvature} :
  (forall (riemann : Riemann) (pm : option Metric),
     outcome_among [TypeError syms_not_sequence]
       (RicciTensor_from_riemann riemann pm)) /\
  (forall (chris : Christoffel) (pm : option Metric),
     outcome_among [TypeError syms_not_sequence]
       (RicciTensor_from_christoffels chris pm)) /\
  (forall metric : Metric,
     outcome_among [TypeError syms_not_sequence]
       (RicciTensor_from_metric metric)) /\
  (forall (t : RicciTensor) (pm : option Metric),
     outcome_among [TypeError syms_not_sequence; Exception no_parent_metric]
       (RicciScalar_from_riccitensor t pm)) /\
  (forall (riemann : Riemann) (pm : option Metric),
     outcome_among [TypeError syms_not_sequence; Exception no_parent_metric]
       (RicciScalar_from_riemann riemann pm)) /\
  (forall (chris : Christoffel) (pm : option Metric),
     outcome_among [TypeError syms_not_sequence; Exception no_parent_metric]
       (RicciScalar_from_christoffels chris pm)) /\
  (forall metric : Metric,
     outcome_among [TypeError syms_not_sequence; Exception no_parent_metric]
       (RicciScalar_from_metric metric)).
Proof.
  assert (Htensor : forall chris pm,
            outcome_among [TypeError syms_not_sequence]
              (RicciTensor_from_christoffels chris pm)).
  { intros chris pm. unfold RicciTensor_from_christoffels.
    apply among_bind; [apply among_ext|]. intros rt _.
    apply RicciTensor_from_riemann_among. }
  assert (Hscalar : forall riemann pm,
            outcome_among
              [TypeError syms_not_sequence; Exception no_parent_metric]
              (RicciScalar_from_riemann riemann pm)).
  { intros riemann pm. unfold RicciScalar_from_riemann.
    apply among_bind.
    - apply among_incl with (es := [TypeError syms_not_sequence]).
      + intros e [<-|[]]. left. reflexivity.
      + apply RicciTensor_from_riemann_among.
    - intros cg _. apply RicciScalar_from_riccitensor_among. }
  assert (Hchris : forall chris pm,
            outcome_among
              [TypeError syms_not_sequence; Exception no_parent_metric]
              (RicciScalar_from_christoffels chris pm)).
  { intros chris pm. unfold RicciScalar_from_christoffels.
    apply among_bind; [apply among_ext|]. intros rt _. apply Hscalar. }
  repeat split.
  - apply RicciTensor_from_riemann_among.
  - exact Htensor.
  - intros metric. unfold RicciTensor_from_metric.
    apply among_bind; [apply among_ext|]. intros ch _. apply Htensor.
  - apply RicciScalar_from_riccitensor_among.
  - exact Hscalar.
  - exact Hchris.
  - intros metric. unfold RicciScalar_from_metric.
    apply among_bind; [apply among_ext|]. intros ch _. apply Hchris.
Qed.

(** ** What the objects hold *)

Section Objects.

Context `{CV : Curvature}.

Lemma WeylTensor_init_inv (a syms : PyObj Expr) (c : string)
  (pm : option Metric) (w : WeylTensor) :
  WeylTensor_init a syms c pm = Ok w ->
  exists x n,
    Tensor_array a c = Ok x /\ seq_len syms = Some n /\ String.length c = 4 /\
    w = {| weyl_base := {| arr := x; config := c |}; weyl_order := 4;
           weyl_parent_metric := pm; weyl_syms := syms; weyl_dims := n |}.
Proof.
  unfold WeylTensor_init, Tensor_init. intros Hinit.
  destruct (Tensor_array a c) as [x|e]; simpl in Hinit; [|discriminate].
  destruct (seq_len syms) as [n|]; [|discriminate].
  destruct (String.length c =? 4) eqn:Hc; simpl in Hinit; [|discriminate].
  exists x, n. apply Nat.eqb_eq in Hc.
  injection Hinit as <-. repeat split; assumption || reflexivity.
Qed.

Lemma RicciScalar_init_inv (e syms : PyObj Expr) (pm : option Metric)
  (s : RicciScalar) :
  RicciScalar_init e syms pm = Ok s ->
  exists n,
    seq_len syms = Some n /\
    s = {| scalar_order := 0; scalar_parent_metric := pm; scalar_expr := e;
           scalar_syms := syms; scalar_dims := n |}.
Proof.
  unfold RicciScalar_init. intros Hinit.
  destruct (seq_len syms) as [n|]; [|discriminate].
  exists n. injection Hinit as <-. split; reflexivity.
Qed.

Lemma RicciTensor_init_wf (a syms : PyObj Expr) (c : string)
  (pm : option Metric) (t : RicciTensor) :
  RicciTensor_init a syms c pm = Ok t -> RicciTensor_wf t.
Proof.
  intros Ht. apply RicciTensor_init_inv in Ht.
  destruct Ht as [x [n [_ [Hs [Hc ->]]]]].
  split; [reflexivity|]. split; [exact Hc | exact Hs].
Qed.

Lemma RicciTensor_from_riemann_wf (riemann : Riemann) (pm : option Metric)
  (t : RicciTensor) :
  RicciTensor_from_riemann riemann pm = Ok t -> RicciTensor_wf t.
Proof.
  unfold RicciTensor_from_riemann. intros Ht.
  apply bind_inv in Ht. destruct Ht as [r' [_ Ht]].
  apply bind_inv in Ht. destruct Ht as [c [_ Ht]].
  apply RicciTensor_init_wf in Ht. exact Ht.
Qed.

Lemma RicciTensor_change_config_wf (t t' : RicciTensor) (newconfig : string)
  (metric : option Metric) :
  RicciTensor_change_config t newconfig metric = Ok t' -> RicciTensor_wf t'.
Proof.
  unfold RicciTensor_change_config. intros Ht.
  destruct (match metric with None => ricci_parent_metric t | Some m => Some m end)
    as [g|]; [|discriminate].
  apply bind_inv in Ht. destruct Ht as [nt [_ Ht]].
  apply RicciTensor_init_wf in Ht. exact Ht.
Qed.

Lemma RicciScalar_from_riccitensor_wf (t : RicciTensor) (pm : option Metric)
  (s : RicciScalar) :
  RicciScalar_from_riccitensor t pm = Ok s -> RicciScalar_wf s.
Proof.
  unfold RicciScalar_from_riccitensor. intros Hs.
  apply bind_inv in Hs. destruct Hs as [t' [_ Hs]].
  apply bind_inv in Hs. destruct Hs as [c [_ Hs]].
  apply RicciScalar_init_inv in Hs. destruct Hs as [n [Hn ->]].
  split; [reflexivity | exact Hn].
Qed.

End Objects.

(** Every Ricci tensor that the constructor or a method of [RicciTensor]
    returns has order 2, a configuration of length 2, and a list or tuple
    of symbols whose length is its [dims]. *)
Theorem RicciTensor_results_wf `{CV : Curvature} :
  (forall a syms c pm t, RicciTensor_init a syms c pm = Ok t ->
     RicciTensor_wf t) /\
  (forall riemann pm t, RicciTensor_from_riemann riemann pm = Ok t ->
     RicciTensor_wf t) /\
  (forall chris pm t, RicciTensor_from_christoffels chris pm = Ok t ->
     RicciTensor_wf t) /\
  (forall metric t, RicciTensor_from_metric metric = Ok t ->
     RicciTensor_wf t) /\
  (forall t newconfig metric t',
     RicciTensor_change_config t newconfig metric = Ok t' ->
     RicciTensor_wf t').
Proof.
  assert (Hchris : forall chris pm t,
            RicciTensor_from_christoffels chris pm = Ok t -> RicciTensor_wf t).
  { intros chris pm t Ht. unfold RicciTensor_from_christoffels in Ht.
    apply bind_inv in Ht. destruct Ht as [rt [_ Ht]].
    apply (RicciTensor_from_riemann_wf _ _ Ht). }
  split; [|split; [|split; [|split]]].
  - intros a syms c pm t Ht. apply (RicciTensor_init_wf _ _ _ _ Ht).
  - intros riemann pm t Ht. apply (RicciTensor_from_riemann_wf _ _ Ht).
  - exact Hchris.
  - intros metric t Ht. unfold RicciTensor_from_metric in Ht.
    apply bind_inv in Ht. destruct Ht as [ch [_ Ht]].
    apply (Hchris _ _ _ Ht).
  - intros t newconfig metric t' Ht.
    apply (RicciTensor_change_config_wf _ _ _ Ht).
Qed.

(** Run: the Ricci tensor of Minkowski space. *)
Lemma RicciTensor_results_wf_run :
  exists t : @RicciTensor ZSympy ZTensorLib,
    @RicciTensor_from_metric ZSympy ZTensorLib ZCurvature minkowski = Ok t /\
    @RicciTensor_wf ZSympy ZTensorLib t.
Proof.
  eexists. split; [reflexivity|].
  apply (proj1 (proj2 (proj2 (proj2
           (@RicciTensor_results_wf ZSympy ZTensorLib ZCurvature))))
           minkowski).
  reflexivity.
Defined.

(** Every Ricci scalar that the constructor or a method of [RicciScalar]
    returns has order 0 and a list or tuple of symbols whose length is its
    [dims]. *)
Theorem RicciScalar_results_wf `{CV : Curvature} :
  (forall e syms pm s, RicciScalar_init e syms pm = Ok s ->
     RicciScalar_wf s) /\
  (forall t pm s, RicciScalar_from_riccitensor t pm = Ok s ->
     RicciScalar_wf s) /\
  (forall riemann pm s, RicciScalar_from_riemann riemann pm = Ok s ->
     RicciScalar_wf s) /\
  (forall chris pm s, RicciScalar_from_christoffels chris pm = Ok s ->
     RicciScalar_wf s) /\
  (forall metric s, RicciScalar_from_metric metric = Ok s ->
     RicciScalar_wf s).
Proof.
  assert (Hriemann : forall riemann pm s,
            RicciScalar_from_riemann riemann pm = Ok s -> RicciScalar_wf s).
  { intros riemann pm s Hs. unfold RicciScalar_from_riemann in Hs.
    apply bind_inv in Hs. destruct Hs as [cg [_ Hs]].
    apply (RicciScalar_from_riccitensor_wf _ _ Hs). }
  assert (Hchris : forall chris pm s,
            RicciScalar_from_christoffels chris pm = Ok s -> RicciScalar_wf s).
  { intros chris pm s Hs. unfold RicciScalar_from_christoffels in Hs.
    apply bind_inv in Hs. destruct Hs as [rt [_ Hs]].
    apply (Hriemann _ _ _ Hs). }
  split; [|split; [|split; [|split]]].
  - intros e syms pm s Hs. apply RicciScalar_init_inv in Hs.
    destruct Hs as [n [Hn ->]]. split; [reflexivity | exact Hn].
  - intros t pm s Hs. apply (RicciScalar_from_riccitensor_wf _ _ Hs).
  - exact Hriemann.
  - exact Hchris.
  - intros metric s Hs. unfold RicciScalar_from_metric in Hs.
    apply bind_inv in Hs. destruct Hs as [ch [_ Hs]].
    apply (Hchris _ _ _ Hs).
Qed.

(** Run: the Ricci scalar of Minkowski space. *)
Lemma RicciScalar_results_wf_run :
  exists s : @RicciScalar ZSympy ZTensorLib,
    @RicciScalar_from_metric ZSympy ZTensorLib ZCurvature minkowski = Ok s /\
    @RicciScalar_wf ZSympy ZTensorLib s.
Proof.
  eexists. split; [reflexivity|].
  apply (proj2 (proj2 (proj2 (proj2
           (@RicciScalar_results_wf ZSympy ZTensorLib ZCurvature))))
           minkowski).
  reflexivity.
Defined.

(** Whatever [WeylTensor.from_metric] returns is in configuration "llll"
    (not the constructor's default "ulll"), has the input metric as parent
    and the metric's symbols, order 4 and [dims] the number of symbols; the
    metric has dimension 3 or more.  Given the base constructor's
    acceptance of arrays, the array is the 3 x 3 array of zeros in dimension
    3 and, above, the simplification of a well-formed d x d x d x d array,
    [d] the dimension of the covariant metric. *)
Theorem WeylTensor_from_metric_returns `{CV : Curvature}
  (Hbase : Tensor_accepts_arrays) (metric : Metric) (w : WeylTensor) :
  WeylTensor_from_metric metric = Ok w ->
  weyl_config w = "llll" /\
  weyl_parent_metric w = Some metric /\
  WeylTensor_symbols w = metric_syms metric /\
  WeylTensor_wf w /\
  ((metric_dims metric = 3 /\ tensor (weyl_base w) = zeros [3; 3]) \/
   (3 < metric_dims metric /\
    exists (g : Metric) (A : NDimArray Expr),
      covariant_metric metric = Ok g /\ square 4 (metric_dims g) A /\
      tensor (weyl_base w) = simplify A)).
Proof.
  unfold WeylTensor_from_metric. intros Hw.
  destruct (3 <? metric_dims metric) eqn:H3.
  - apply Nat.ltb_lt in H3.
    apply bind_inv in Hw. destruct Hw as [g [Hg Hw]].
    apply bind_inv in Hw. destruct Hw as [rm [_ Hw]].
    apply bind_inv in Hw. destruct Hw as [rcov [_ Hw]].
    apply bind_inv in Hw. destruct Hw as [ric [_ Hw]].
    apply bind_inv in Hw. destruct Hw as [rs [_ Hw]].
    apply bind_inv in Hw. destruct Hw as [C [HC Hw]].
    apply bind_inv in Hw. destruct Hw as [A [HA Hw]].
    destruct (@weyl_loop_outcome _ (metric_dims g)
                (riemann_tensor rcov) (tensor (ricci_base ric))
                (metric_tensor g) (scalar_expr rs)
                (metric_dims g ^ 4) 0 (zeros4 (metric_dims g)))
      as [[C' [HC' Hreg]] | [x Hx]].
    + destruct (metric_dims g); simpl; lia.
    + apply zeros4_regular.
    + rewrite HC in HC'. injection HC' as <-.
      destruct (sympy_Array4_square Hreg) as [A' [HA' Hsq]].
      rewrite HA in HA'. injection HA' as <-.
      apply WeylTensor_init_inv in Hw.
      destruct Hw as [x [n [Hx [Hs [_ ->]]]]].
      rewrite (Hbase (simplify A) "llll" eq_refl) in Hx. injection Hx as <-.
      split; [reflexivity|]. split; [reflexivity|]. split; [reflexivity|].
      split; [split; [reflexivity|]; split; [reflexivity | exact Hs]|].
      right. split; [exact H3|]. exists g, A.
      split; [exact Hg|]. split; [exact Hsq | reflexivity].
    + rewrite HC in Hx. discriminate Hx.
  - destruct (metric_dims metric =? 3) eqn:H3'; [|discriminate Hw].
    apply Nat.eqb_eq in H3'.
    apply WeylTensor_init_inv in Hw.
    destruct Hw as [x [n [Hx [Hs [_ ->]]]]].
    rewrite (Hbase (zeros [3; 3]) "llll" eq_refl) in Hx. injection Hx as <-.
    split; [reflexivity|]. split; [reflexivity|]. split; [reflexivity|].
    split; [split; [reflexivity|]; split; [reflexivity | exact Hs]|].
    left. split; [exact H3' | reflexivity].
Qed.

(** Run: Euclidean 3-space. *)
Lemma WeylTensor_from_metric_returns_run :
  exists w : @WeylTensor ZSympy ZTensorLib,
    @WeylTensor_from_metric ZSympy ZTensorLib ZCurvature euclid3 = Ok w /\
    weyl_config w = "llll" /\
    weyl_parent_metric w = Some euclid3.
Proof.
  eexists. split; [reflexivity|].
  destruct (@WeylTensor_from_metric_returns ZSympy ZTensorLib ZCurvature
              ZTensorLib_accepts_arrays euclid3 _ eq_refl) as [Hc [Hp _]].
  split; [exact Hc | exact Hp].
Defined.

(** ** change_config *)

Section ChangeConfig.

Context `{TL : TensorLib}.

Lemma RicciTensor_change_config_Ok_inv (t t' : RicciTensor)
  (newconfig : string) (metric : option Metric) :
  RicciTensor_change_config t newconfig metric = Ok t' ->
  exists (g : Metric) (nt : PyObj Expr) (x : NDimArray Expr) (n : nat),
    resolve_metric metric (ricci_parent_metric t) = Some g /\
    _change_config (ricci_base t) g newconfig = Ok nt /\
    Tensor_array nt newconfig = Ok x /\
    seq_len (ricci_syms t) = Some n /\
    String.length newconfig = 2 /\
    t' = {| ricci_base := {| arr := x; config := newconfig |};
            ricci_order := 2; ricci_parent_metric := Some g;
            ricci_syms := ricci_syms t; ricci_dims := n |}.
Proof.
  unfold RicciTensor_change_config, resolve_metric. intros Ht.
  destruct (match metric with None => ricci_parent_metric t | Some m => Some m end)
    as [g|]; [|discriminate].
  apply bind_inv in Ht. destruct Ht as [nt [Hnt Ht]].
  apply RicciTensor_init_inv in Ht.
  destruct Ht as [x [n [Hx [Hs [Hc ->]]]]].
  exists g, nt, x, n. repeat split; try assumption.
  destruct (_change_config (ricci_base t) g newconfig);
    simpl in Hnt; [injection Hnt as ->; reflexivity | discriminate].
Qed.

Lemma WeylTensor_change_config_Ok (w : WeylTensor) (newconfig : string)
  (metric : option Metric) (g : Metric) (nt : PyObj Expr)
  (x : NDimArray Expr) (n : nat) :
  resolve_metric metric (weyl_parent_metric w) = Some g ->
  _change_config (weyl_base w) g newconfig = Ok nt ->
  Tensor_array nt newconfig = Ok x ->
  seq_len (weyl_syms w) = Some n ->
  String.length newconfig = 4 ->
  WeylTensor_change_config w newconfig metric
    = Ok {| weyl_base := {| arr := x; config := newconfig |};
            weyl_order := 4; weyl_parent_metric := Some g;
            weyl_syms := weyl_syms w; weyl_dims := n |}.
Proof.
  intros Hg Hnt Hx Hs Hc. unfold WeylTensor_change_config.
  unfold resolve_metric in Hg. rewrite Hg. rewrite (ext_Ok Hnt). simpl.
  apply WeylTensor_init_Ok; assumption.
Qed.

Lemma WeylTensor_change_config_Ok_inv (w w' : WeylTensor)
  (newconfig : string) (metric : option Metric) :
  WeylTensor_change_config w newconfig metric = Ok w' ->
  exists (g : Metric) (nt : PyObj Expr) (x : NDimArray Expr) (n : nat),
    resolve_metric metric (weyl_parent_metric w) = Some g /\
    _change_config (weyl_base w) g newconfig = Ok nt /\
    Tensor_array nt newconfig = Ok x /\
    seq_len (weyl_syms w) = Some n /\
    String.length newconfig = 4 /\
    w' = {| weyl_base := {| arr := x; config := newconfig |};
            weyl_order := 4; weyl_parent_metric := Some g;
            weyl_syms := weyl_syms w; weyl_dims := n |}.
Proof.
  unfold WeylTensor_change_config, resolve_metric. intros Hw.
  destruct (match metric with None => weyl_parent_metric w | Some m => Some m end)
    as [g|]; [|discriminate].
  apply bind_inv in Hw. destruct Hw as [nt [Hnt Hw]].
  apply WeylTensor_init_inv in Hw.
  destruct Hw as [x [n [Hx [Hs [Hc ->]]]]].
  exists g, nt, x, n. repeat split; try assumption.
  destruct (_change_config (weyl_base w) g newconfig);
    simpl in Hnt; [injection Hnt as ->; reflexivity | discriminate].
Qed.

End ChangeConfig.

(** [change_config] of a Ricci tensor or of a Weyl tensor returns an object
    exactly when a metric is resolved (the argument, else the stored parent
    metric), [_change_config] returns with it, the base constructor accepts
    what it returned with the new configuration, the symbols of the tensor
    are a list or tuple, and the new configuration has the length of the
    order; the object returned has the array the base constructor stored,
    the new configuration, the resolved metric as parent, and the symbols of
    the tensor. *)
Theorem change_config_returns_iff `{TL : TensorLib} :
  (forall (t t' : RicciTensor) (newconfig : string) (metric : option Metric),
     RicciTensor_change_config t newconfig metric = Ok t' <->
     exists (g : Metric) (nt : PyObj Expr) (x : NDimArray Expr) (n : nat),
       resolve_metric metric (ricci_parent_metric t) = Some g /\
       _change_config (ricci_base t) g newconfig = Ok nt /\
       Tensor_array nt newconfig = Ok x /\
       seq_len (ricci_syms t) = Some n /\
       String.length newconfig = 2 /\
       t' = {| ricci_base := {| arr := x; config := newconfig |};
               ricci_order := 2; ricci_parent_metric := Some g;
               ricci_syms := ricci_syms t; ricci_dims := n |}) /\
  (forall (w w' : WeylTensor) (newconfig : string) (metric : option Metric),
     WeylTensor_change_config w newconfig metric = Ok w' <->
     exists (g : Metric) (nt : PyObj Expr) (x : NDimArray Expr) (n : nat),
       resolve_metric metric (weyl_parent_metric w) = Some g /\
       _change_config (weyl_base w) g newconfig = Ok nt /\
       Tensor_array nt newconfig = Ok x /\
       seq_len (weyl_syms w) = Some n /\
       String.length newconfig = 4 /\
       w' = {| weyl_base := {| arr := x; config := newconfig |};
               weyl_order := 4; weyl_parent_metric := Some g;
               weyl_syms := weyl_syms w; weyl_dims := n |}).
Proof.
  split.
  - intros t t' newconfig metric. split.
    + apply RicciTensor_change_config_Ok_inv.
    + intros [g [nt [x [n [Hg [Hnt [Hx [Hs [Hc ->]]]]]]]]].
      apply RicciTensor_change_config_Ok with (nt := nt); assumption.
  - intros w w' newconfig metric. split.
    + apply WeylTensor_change_config_Ok_inv.
    + intros [g [nt [x [n [Hg [Hnt [Hx [Hs [Hc ->]]]]]]]]].
      apply WeylTensor_change_config_Ok with (nt := nt); assumption.
Qed.

(** Run: a zero Weyl tensor over Euclidean 2-space, from "llll" to "ulll". *)
Lemma change_config_returns_iff_run :
  @WeylTensor_change_config ZSympy ZTensorLib
     (@mkWeylTensor ZSympy ZTensorLib
        (@mkTensor ZSympy (@zeros ZSympy [2; 2; 2; 2]) "llll") 4
        (Some euclid2) (PyTuple [1; 2]%Z) 2)
     "ulll" None
    = Ok (@mkWeylTensor ZSympy ZTensorLib
            (@mkTensor ZSympy (@zeros ZSympy [2; 2; 2; 2]) "ulll") 4
            (Some euclid2) (PyTuple [1; 2]%Z) 2).
Proof.
  apply (proj2 (@change_config_returns_iff ZSympy ZTensorLib)).
  exists euclid2, (PyArray (@zeros ZSympy [2; 2; 2; 2])),
    (@zeros ZSympy [2; 2; 2; 2]), 2.
  repeat split; reflexivity.
Defined.

(** The tensor that [change_config] returns carries the metric that was
    used: a later [change_config] on it with no metric is the same call as
    with that metric, and so never raises the Exception of a missing parent
    metric, even when the original tensor stored none. *)
Theorem change_config_keeps_metric `{TL : TensorLib} :
  (forall (t t' : RicciTensor) (c : string) (metric : option Metric),
     RicciTensor_change_config t c metric = Ok t' ->
     exists g : Metric,
       resolve_metric metric (ricci_parent_metric t) = Some g /\
       ricci_parent_metric t' = Some g /\
       RicciTensor_symbols t' = RicciTensor_symbols t /\
       forall c' : string,
         RicciTensor_change_config t' c' None
           = RicciTensor_change_config t' c' (Some g)) /\
  (forall (w w' : WeylTensor) (c : string) (metric : option Metric),
     WeylTensor_change_config w c metric = Ok w' ->
     exists g : Metric,
       resolve_metric metric (weyl_parent_metric w) = Some g /\
       weyl_parent_metric w' = Some g /\
       WeylTensor_symbols w' = WeylTensor_symbols w /\
       forall c' : string,
         WeylTensor_change_config w' c' None
           = WeylTensor_change_config w' c' (Some g)).
Proof.
  split.
  - intros t t' c metric Ht. apply RicciTensor_change_config_Ok_inv in Ht.
    destruct Ht as [g [nt [x [n [Hg [_ [_ [_ [_ ->]]]]]]]]].
    exists g. split; [exact Hg|]. split; [reflexivity|].
    split; [reflexivity|]. intros c'. reflexivity.
  - intros w w' c metric Hw. apply WeylTensor_change_config_Ok_inv in Hw.
    destruct Hw as [g [nt [x [n [Hg [_ [_ [_ [_ ->]]]]]]]]].
    exists g. split; [exact Hg|]. split; [reflexivity|].
    split; [reflexivity|]. intros c'. reflexivity.
Qed.

(** Run: a Ricci tensor built without a parent metric is converted with
    Minkowski space as explicit metric; the result is converted back with no
    metric given. *)
Lemma change_config_keeps_metric_run :
  exists t' t'' : @RicciTensor ZSympy ZTensorLib,
    @RicciTensor_change_config ZSympy ZTensorLib
       (@mkRicciTensor ZSympy ZTensorLib
          (@mkTensor ZSympy (diag [1; 1; 1; 1]%Z) "ll") 2 None
          (PyTuple [1; 2; 3; 4]%Z) 4)
       "ul" (Some minkowski) = Ok t' /\
    ricci_parent_metric t' = Some minkowski /\
    @RicciTensor_change_config ZSympy ZTensorLib t' "ll" None = Ok t'' /\
    tensor (ricci_base t'') = diag [1; 1; 1; 1]%Z.
Proof.
  eexists. eexists. split; [reflexivity|].
  destruct (proj1 (@change_config_keeps_metric ZSympy ZTensorLib)
              (@mkRicciTensor ZSympy ZTensorLib
                 (@mkTensor ZSympy (diag [1; 1; 1; 1]%Z) "ll") 2 None
                 (PyTuple [1; 2; 3; 4]%Z) 4)
              _ "ul" (Some minkowski) eq_refl)
    as [g [Hg [Hp [_ Hsame]]]].
  simpl in Hg. injection Hg as <-.
  split; [exact Hp|]. split.
  - rewrite (Hsame "ll"). reflexivity.
  - reflexivity.
Defined.

(** ** Deriving the Ricci scalar *)

(** A Ricci tensor can be derived from a Riemann tensor that carries no
    parent metric, a Ricci scalar cannot: with a Riemann tensor in
    configuration "ulll", no parent metric supplied and none stored,
    [RicciTensor.from_riemann] returns a tensor without parent metric
    (when the contraction is delivered and accepted), and on such a tensor,
    as on every tensor not in configuration "ul" that has no parent metric,
    the derivation of the scalar raises the Exception of a missing parent
    metric. *)
Theorem RicciScalar_needs_metric `{CV : Curvature} :
  (forall t : RicciTensor,
     ricci_config t <> "ul" -> ricci_parent_metric t = None ->
     RicciScalar_from_riccitensor t None
       = Raise (Exception no_parent_metric)) /\
  (forall (riemann : Riemann) (c : PyObj Expr) (x : NDimArray Expr) (n : nat),
     riemann_config riemann = "ulll" ->
     riemann_parent_metric riemann = None ->
     tensorcontraction (riemann_tensor riemann) 0 2 = Ok c ->
     Tensor_array c "ll" = Ok x ->
     seq_len (riemann_syms riemann) = Some n ->
     RicciTensor_from_riemann riemann None
       = Ok {| ricci_base := {| arr := x; config := "ll" |};
               ricci_order := 2; ricci_parent_metric := None;
               ricci_syms := riemann_syms riemann; ricci_dims := n |} /\
     RicciScalar_from_riemann riemann None
       = Raise (Exception no_parent_metric)).
Proof.
  assert (Hscalar : forall t : RicciTensor,
            ricci_config t <> "ul" -> ricci_parent_metric t = None ->
            RicciScalar_from_riccitensor t None
              = Raise (Exception no_parent_metric)).
  { intros t Hc Hpm. unfold RicciScalar_from_riccitensor.
    apply String.eqb_neq in Hc. rewrite Hc. simpl.
    unfold RicciTensor_change_config. rewrite Hpm. reflexivity. }
  split; [exact Hscalar|].
  intros riemann c x n Hc Hpm Htr Hx Hs.
  assert (Hricci :
            RicciTensor_from_riemann riemann None
              = Ok {| ricci_base := {| arr := x; config := "ll" |};
                      ricci_order := 2; ricci_parent_metric := None;
                      ricci_syms := riemann_syms riemann; ricci_dims := n |}).
  { rewrite RicciTensor_from_riemann_step with (r' := riemann)
      by (rewrite Hc; reflexivity).
    rewrite (ext_Ok Htr). simpl. rewrite Hpm.
    apply RicciTensor_init_Ok; [exact Hx | exact Hs | reflexivity]. }
  split; [exact Hricci|].
  unfold RicciScalar_from_riemann. rewrite Hricci. simpl.
  apply Hscalar; [discriminate | reflexivity].
Qed.

(** Run: a flat Riemann tensor that carries no parent metric. *)
Lemma RicciScalar_needs_metric_run :
  @RicciScalar_from_riemann ZSympy ZTensorLib ZCurvatureDetached
     {| flat_config := "ulll"; flat_metric := minkowski |} None
    = Raise (Exception no_parent_metric).
Proof.
  apply (proj2 (@RicciScalar_needs_metric ZSympy ZTensorLib ZCurvatureDetached)
           {| flat_config := "ulll"; flat_metric := minkowski |}
           (PyArray (@zeros ZSympy [4; 4])) (@zeros ZSympy [4; 4]) 4);
    reflexivity.
Defined.

Section ScalarAndTensor.

Context `{CV : Curvature}.

(** The scalar of a Ricci tensor not in configuration "ul": its expression
    and its parent metric. *)
Lemma RicciScalar_from_riccitensor_parts (t : RicciTensor) (n : nat) :
  ricci_config t <> "ul" -> seq_len (ricci_syms t) = Some n ->
  (s <- RicciScalar_from_riccitensor t None ;;
   Ok (scalar_expr s, scalar_parent_metric s, scalar_syms s)) =
  (t' <- RicciTensor_change_config t "ul" None ;;
   c <- ext (tensorcontraction (tensor (ricci_base t')) 0 1) ;;
   Ok (c, ricci_parent_metric t', ricci_syms t)).
Proof.
  intros Hc Hs. unfold RicciScalar_from_riccitensor.
  apply String.eqb_neq in Hc. rewrite Hc. simpl.
  destruct (RicciTensor_change_config t "ul" None) as [t'|e] eqn:Ht';
    [|reflexivity].
  simpl. destruct (RicciTensor_change_config_inv _ _ _ Ht') as [Hsyms _].
  destruct (tensorcontraction (tensor (ricci_base t')) 0 1) as [c|e];
    [|reflexivity].
  simpl. rewrite Hsyms.
  rewrite RicciScalar_init_Ok with (n := n) by exact Hs. reflexivity.
Qed.

Lemma RicciScalar_from_riemann_parts (riemann : Riemann)
  (pm : option Metric) :
  (s <- RicciScalar_from_riemann riemann pm ;;
   Ok (scalar_expr s, scalar_parent_metric s, scalar_syms s)) =
  (t <- RicciTensor_from_riemann riemann pm ;;
   t' <- RicciTensor_change_config t "ul" None ;;
   c <- ext (tensorcontraction (tensor (ricci_base t')) 0 1) ;;
   Ok (c, ricci_parent_metric t', ricci_syms t)).
Proof.
  unfold RicciScalar_from_riemann.
  destruct (RicciTensor_from_riemann riemann pm) as [cg|e] eqn:Hcg;
    [|reflexivity].
  simpl. destruct (RicciTensor_from_riemann_inv _ _ Hcg) as [Hll [n Hs]].
  apply RicciScalar_from_riccitensor_parts with (n := n); [|exact Hs].
  rewrite Hll. discriminate.
Qed.

End ScalarAndTensor.

(** From a Riemann tensor and from Christoffel symbols, with any parent
    metric argument, as from a metric: the Ricci scalar has the expression
    that is the contraction of axes (0, 1) of the Ricci tensor derived from
    the same arguments and converted to "ul" with its own parent metric, it
    has the parent metric of the converted tensor and the symbols of the
    Ricci tensor; when one derivation fails, so does the other, with the
    same exception. *)
Theorem RicciScalar_is_trace_of_RicciTensor `{CV : Curvature} :
  (forall (riemann : Riemann) (pm : option Metric),
     (s <- RicciScalar_from_riemann riemann pm ;;
      Ok (scalar_expr s, scalar_parent_metric s, scalar_syms s)) =
     (t <- RicciTensor_from_riemann riemann pm ;;
      t' <- RicciTensor_change_config t "ul" None ;;
      c <- ext (tensorcontraction (tensor (ricci_base t')) 0 1) ;;
      Ok (c, ricci_parent_metric t', ricci_syms t))) /\
  (forall (chris : Christoffel) (pm : option Metric),
     (s <- RicciScalar_from_christoffels chris pm ;;
      Ok (scalar_expr s, scalar_parent_metric s, scalar_syms s)) =
     (t <- RicciTensor_from_christoffels chris pm ;;
      t' <- RicciTensor_change_config t "ul" None ;;
      c <- ext (tensorcontraction (tensor (ricci_base t')) 0 1) ;;
      Ok (c, ricci_parent_metric t', ricci_syms t))).
Proof.
  split.
  - apply RicciScalar_from_riemann_parts.
  - intros chris pm.
    unfold RicciScalar_from_christoffels, RicciTensor_from_christoffels.
    destruct (ext (RiemannCurvatureTensor_from_christoffels chris pm))
      as [rt|e]; [|reflexivity].
    simpl. apply RicciScalar_from_riemann_parts.
Qed.

(** Every Weyl tensor that the constructor or a method of [WeylTensor]
    returns has order 4, a configuration of length 4, and a list or tuple
    of symbols whose length is its [dims]. *)
Theorem WeylTensor_results_wf `{CV : Curvature} :
  (forall a syms c pm w, WeylTensor_init a syms c pm = Ok w ->
     WeylTensor_wf w) /\
  (forall metric w, WeylTensor_from_metric metric = Ok w ->
     WeylTensor_wf w) /\
  (forall w newconfig metric w',
     WeylTensor_change_config w newconfig metric = Ok w' ->
     WeylTensor_wf w').
Proof.
  assert (Hinit : forall a syms c pm w,
            WeylTensor_init a syms c pm = Ok w -> WeylTensor_wf w).
  { intros a syms c pm w Hw. apply WeylTensor_init_inv in Hw.
    destruct Hw as [x [n [_ [Hs [Hc ->]]]]].
    split; [reflexivity|]. split; [exact Hc | exact Hs]. }
  split; [exact Hinit|]. split.
  - intros metric w Hw. unfold WeylTensor_from_metric in Hw.
    destruct (3 <? metric_dims metric).
    + apply bind_inv in Hw. destruct Hw as [g [_ Hw]].
      apply bind_inv in Hw. destruct Hw as [rm [_ Hw]].
      apply bind_inv in Hw. destruct Hw as [rcov [_ Hw]].
      apply bind_inv in Hw. destruct Hw as [ric [_ Hw]].
      apply bind_inv in Hw. destruct Hw as [rs [_ Hw]].
      apply bind_inv in Hw. destruct Hw as [C [_ Hw]].
      apply bind_inv in Hw. destruct Hw as [A [_ Hw]].
      apply (Hinit _ _ _ _ _ Hw).
    + destruct (metric_dims metric =? 3); [|discriminate Hw].
      apply (Hinit _ _ _ _ _ Hw).
  - intros w newconfig metric w' Hw.
    unfold WeylTensor_change_config in Hw.
    destruct (match metric with None => weyl_parent_metric w | Some m => Some m end)
      as [g|]; [|discriminate].
    apply bind_inv in Hw. destruct Hw as [nt [_ Hw]].
    apply (Hinit _ _ _ _ _ Hw).
Qed.

(** Run: the Weyl tensor of Euclidean 3-space. *)
Lemma WeylTensor_results_wf_run :
  exists w : @WeylTensor ZSympy ZTensorLib,
    @WeylTensor_from_metric ZSympy ZTensorLib ZCurvature euclid3 = Ok w /\
    @WeylTensor_wf ZSympy ZTensorLib w.
Proof.
  eexists. split; [reflexivity|].
  apply (proj1 (proj2 (@WeylTensor_results_wf ZSympy ZTensorLib ZCurvature))
           euclid3).
  reflexivity.
Defined.

(** ** The symmetries of the decomposition *)

Section Symmetries.

Context `{SY : Sympy}.

(** Expressions, up to simplification, form a commutative ring, and the
    quotient of a negated expression is the negated quotient. *)
Hypothesis Expr_ring :
  ring_theory (of_int 0) (of_int 1) add mul sub
    (fun x : Expr => sub (of_int 0) x) eq.
Hypothesis div_opp :
  forall a b : Expr, div (sub (of_int 0) a) b = sub (of_int 0) (div a b).

Add Ring Expr_comm_ring : Expr_ring.

Local Notation "M @ idx" := (entry (of_int 0%Z) M idx) (at level 20).

Lemma weyl_component_swap_last (n : nat) (R Ric g : NDimArray Expr)
  (Rs : Expr) (i k l m : nat) :
  R @ [i; k; m; l] = sub (of_int 0) (R @ [i; k; l; m]) ->
  weyl_component n R Ric g Rs i k m l
    = sub (of_int 0) (weyl_component n R Ric g Rs i k l m).
Proof.
  intros HR. unfold weyl_component. cbv zeta. rewrite HR.
  replace (sub (add (sub (mul (Ric @ [i; l]) (g @ [k; m]))
                         (mul (Ric @ [i; m]) (g @ [k; l])))
                    (mul (Ric @ [k; m]) (g @ [i; l])))
               (mul (Ric @ [k; l]) (g @ [i; m])))
    with (sub (of_int 0)
            (sub (add (sub (mul (Ric @ [i; m]) (g @ [k; l]))
                           (mul (Ric @ [i; l]) (g @ [k; m])))
                      (mul (Ric @ [k; l]) (g @ [i; m])))
                 (mul (Ric @ [k; m]) (g @ [i; l])))) by ring.
  replace (mul Rs (sub (mul (g @ [i; m]) (g @ [k; l]))
                       (mul (g @ [i; l]) (g @ [k; m]))))
    with (sub (of_int 0)
            (mul Rs (sub (mul (g @ [i; l]) (g @ [k; m]))
                         (mul (g @ [i; m]) (g @ [k; l]))))) by ring.
  rewrite !div_opp. ring.
Qed.

Lemma weyl_component_swap_first (n : nat) (R Ric g : NDimArray Expr)
  (Rs : Expr) (i k l m : nat) :
  R @ [k; i; l; m] = sub (of_int 0) (R @ [i; k; l; m]) ->
  weyl_component n R Ric g Rs k i l m
    = sub (of_int 0) (weyl_component n R Ric g Rs i k l m).
Proof.
  intros HR. unfold weyl_component. cbv zeta. rewrite HR.
  replace (sub (add (sub (mul (Ric @ [k; m]) (g @ [i; l]))
                         (mul (Ric @ [k; l]) (g @ [i; m])))
                    (mul (Ric @ [i; l]) (g @ [k; m])))
               (mul (Ric @ [i; m]) (g @ [k; l])))
    with (sub (of_int 0)
            (sub (add (sub (mul (Ric @ [i; m]) (g @ [k; l]))
                           (mul (Ric @ [i; l]) (g @ [k; m])))
                      (mul (Ric @ [k; l]) (g @ [i; m])))
                 (mul (Ric @ [k; m]) (g @ [i; l])))) by ring.
  replace (mul Rs (sub (mul (g @ [k; l]) (g @ [i; m]))
                       (mul (g @ [k; m]) (g @ [i; l]))))
    with (sub (of_int 0)
            (mul Rs (sub (mul (g @ [i; l]) (g @ [k; m]))
                         (mul (g @ [i; m]) (g @ [k; l]))))) by ring.
  rewrite !div_opp. ring.
Qed.

Lemma weyl_component_swap_pairs (n : nat) (R Ric g : NDimArray Expr)
  (Rs : Expr) (i k l m : nat) :
  R @ [l; m; i; k] = R @ [i; k; l; m] ->
  (forall a b, Ric @ [a; b] = Ric @ [b; a]) ->
  (forall a b, g @ [a; b] = g @ [b; a]) ->
  weyl_component n R Ric g Rs l m i k = weyl_component n R Ric g Rs i k l m.
Proof.
  intros HR HRic Hg. unfold weyl_component. cbv zeta. rewrite HR.
  rewrite (HRic l k), (HRic l i), (HRic m i), (HRic m k).
  rewrite (Hg m i), (Hg m k), (Hg l k), (Hg l i).
  f_equal. f_equal.
  - f_equal. ring.
  - f_equal. ring.
Qed.

End Symmetries.

(** The component that the loop computes has the symmetries of a Weyl
    tensor whenever its operands have theirs (expressions taken up to
    simplification, in a commutative ring where a negated numerator gives
    the negated quotient): it changes sign when the last two indices are
    exchanged, and when the first two are, if the Riemann components do; it
    is unchanged when the two index pairs are exchanged, if the Riemann
    components are and the Ricci tensor and the metric are symmetric. *)
Theorem weyl_component_symmetries `{SY : Sympy}
  (Hring : ring_theory (of_int 0) (of_int 1) add mul sub
             (fun x : Expr => sub (of_int 0) x) eq)
  (Hdiv : forall a b : Expr,
            div (sub (of_int 0) a) b = sub (of_int 0) (div a b))
  (n : nat) (R Ric g : NDimArray Expr) (Rs : Expr) (i k l m : nat) :
  (entry (of_int 0) R [i; k; m; l]
     = sub (of_int 0) (entry (of_int 0) R [i; k; l; m]) ->
   weyl_component n R Ric g Rs i k m l
     = sub (of_int 0) (weyl_component n R Ric g Rs i k l m)) /\
  (entry (of_int 0) R [k; i; l; m]
     = sub (of_int 0) (entry (of_int 0) R [i; k; l; m]) ->
   weyl_component n R Ric g Rs k i l m
     = sub (of_int 0) (weyl_component n R Ric g Rs i k l m)) /\
  (entry (of_int 0) R [l; m; i; k] = entry (of_int 0) R [i; k; l; m] ->
   (forall a b, entry (of_int 0) Ric [a; b] = entry (of_int 0) Ric [b; a]) ->
   (forall a b, entry (of_int 0) g [a; b] = entry (of_int 0) g [b; a]) ->
   weyl_component n R Ric g Rs l m i k
     = weyl_component n R Ric g Rs i k l m).
Proof.
  split; [|split].
  - apply weyl_component_swap_last; assumption.
  - apply weyl_component_swap_first; assumption.
  - apply weyl_component_swap_pairs; assumption.
Qed.

Lemma ZQuot_ring :
  ring_theory 0%Z 1%Z Z.add Z.mul Z.sub (fun x : Z => (0 - x)%Z) eq.
Proof. constructor; intros; lia. Qed.

Lemma ZQuot_div_opp (a b : Z) : Z.quot (0 - a) b = (0 - Z.quot a b)%Z.
Proof.
  destruct (Z.eq_dec b 0) as [->|Hb].
  - destruct a; reflexivity.
  - replace (0 - a)%Z with (- a)%Z by lia.
    rewrite Z.quot_opp_l by exact Hb. lia.
Qed.

(** Run: with vanishing Riemann components, the Ricci tensor and the metric
    both diag(1, 1, 1, 1) and Ricci scalar 2, the components at (0, 1, 1, 0)
    and (0, 1, 0, 1) are 1 and -1. *)
Lemma weyl_component_symmetries_run :
  @weyl_component ZQuotSympy 4 (@zeros ZQuotSympy [4; 4; 4; 4])
     (diag [1; 1; 1; 1]%Z) (diag [1; 1; 1; 1]%Z) 2%Z 0 1 1 0 = 1%Z /\
  @weyl_component ZQuotSympy 4 (@zeros ZQuotSympy [4; 4; 4; 4])
     (diag [1; 1; 1; 1]%Z) (diag [1; 1; 1; 1]%Z) 2%Z 0 1 0 1 = (-1)%Z.
Proof.
  destruct (@weyl_component_symmetries ZQuotSympy ZQuot_ring ZQuot_div_opp 4
              (@zeros ZQuotSympy [4; 4; 4; 4]) (diag [1; 1; 1; 1]%Z)
              (diag [1; 1; 1; 1]%Z) 2%Z 0 1 0 1) as [Hlast _].
  split; [|reflexivity].
  rewrite (Hlast eq_refl). reflexivity.
Defined.
